(** * SteamIconsFix: a shallow embedding of [SteamIconsFix.py]

    The script resolves, for a set of Steam application identifiers, the
    client icon of each title and stores it under the Steam installation
    directory.  This development embeds

    - the Python string primitives the script relies on ([in], [strip],
      [split], [join]),
    - [download_and_extract], [fetch_icon_by_app_id], [download_icon] and
      [main] as computations in a state-and-exception monad whose state
      carries the shared [failed_icons] list, the icon files written and the
      trace of external effects,

    and proves properties of the acquisition engine and the batch loop.

    Conventions.  What the script asks of its surroundings (the session
    client, the file system, the network, the zip library, the shell) is
    answered by a [World]; the answers may differ from one item of the
    batch to the next.  [os.path.join], [os.path.dirname] and [int] are
    taken from a [Python] instance.  Reading the registry, the library
    folders and the manifests is the host's.  Writing an icon file
    succeeds.  Every effect is appended to the trace of the state, so
    that what a run did can be read off its final state. *)

From Stdlib Require Import ZArith Ascii String List Lia.
From stdpp Require Import base option list gmap strings pretty.

Open Scope Z_scope.

(* ===================================================================== *)
(** ** Python string primitives *)
(* ===================================================================== *)

Module PyStr.

(** Characters are code points below 256.  [str.isspace] holds on them
    exactly for TAB..CR, FS..US, SPACE, NEL (0x85) and NBSP (0xa0). *)
Definition is_space (c : ascii) : bool :=
  let n := N_of_ascii c in
  ((9 <=? n) && (n <=? 13) || (28 <=? n) && (n <=? 32)
   || (n =? 133) || (n =? 160))%N.

(** The double-quote character (code 34), the separator the parser
    splits lines at. *)
Definition dquote : ascii := "034"%char.

(** [quoted s] is [s] between two double quotes. *)
Definition quoted (s : string) : string :=
  String dquote (s +:+ String dquote EmptyString).

(** [s.lstrip()] *)
Fixpoint lstrip (s : string) : string :=
  match s with
  | EmptyString => EmptyString
  | String c r => if is_space c then lstrip r else s
  end.

(** [s.rstrip()] *)
Fixpoint rstrip (s : string) : string :=
  match s with
  | EmptyString => EmptyString
  | String c r =>
      match rstrip r with
      | EmptyString => if is_space c then EmptyString else String c EmptyString
      | r' => String c r'
      end
  end.

(** [s.strip()] *)
Definition strip (s : string) : string := rstrip (lstrip s).

(** [s.split(sep)] for a one-character separator: one more part than
    there are separators, empty parts kept. *)
Fixpoint split (sep : ascii) (s : string) : list string :=
  match s with
  | EmptyString => [EmptyString]
  | String c r =>
      if Ascii.eqb c sep then EmptyString :: split sep r
      else match split sep r with
           | p :: ps => String c p :: ps
           | [] => [String c EmptyString]
           end
  end.

(** [s.startswith(p)] *)
Fixpoint startswith (p s : string) : bool :=
  match p, s with
  | EmptyString, _ => true
  | String a p', String b s' => Ascii.eqb a b && startswith p' s'
  | String _ _, EmptyString => false
  end.

(** [needle in hay] *)
Fixpoint contains (needle hay : string) : bool :=
  startswith needle hay ||
  match hay with
  | EmptyString => false
  | String _ r => contains needle r
  end.

(** [sep.join(parts)] *)
Fixpoint join (sep : string) (parts : list string) : string :=
  match parts with
  | [] => EmptyString
  | [p] => p
  | p :: ps => p +:+ sep +:+ join sep ps
  end.

(** Number of occurrences of a character. *)
Fixpoint count (c : ascii) (s : string) : nat :=
  match s with
  | EmptyString => O
  | String a r => (if Ascii.eqb a c then 1 else 0)%nat + count c r
  end.

(** [s.replace(old, new)] for a non-empty [old]: the occurrences are
    replaced from left to right and do not overlap.  [skip] counts the
    characters of an occurrence that are still to be passed over. *)
Fixpoint replace_from (old new : string) (skip : nat) (s : string) : string :=
  match s with
  | EmptyString => EmptyString
  | String c r =>
      match skip with
      | S k => replace_from old new k r
      | O =>
          if startswith old s then
            new +:+ replace_from old new (String.length old - 1) r
          else String c (replace_from old new O r)
      end
  end.

Definition replace (old new s : string) : string := replace_from old new O s.

End PyStr.

(* ===================================================================== *)
(** ** Data model *)
(* ===================================================================== *)

(** The two values the script stores under the [reason] key. *)
Inductive Reason := icon_not_found | failed_to_download.

(** An entry of [failed_icons]: the dict with keys [appid], [name] and
    [reason]. *)
Record FailureRecord := mkFailure {
  appid : string;
  name : string;
  reason : Reason
}.

(** An entry of the list returned by [get_steam_games]: the dict with keys
    [name] and [appid]. *)
Record Game := mkGame {
  game_name : string;
  game_appid : string
}.

(** Exception classes that occur in the script or in the libraries it
    calls; all of them derive from [Exception]. *)
Inductive ExnClass :=
| CalledProcessError | RequestException | BadZipFile
| KeyError | IndexError | ValueError | OSError | OtherException.

(** A raised exception: its class and what [str(err)] prints. *)
Record Exn := mkExn {
  exn_class : ExnClass;
  exn_str : string
}.

(** The result of a library call: an exception or a value. *)
Inductive Result (A : Type) :=
| Raises (e : Exn)
| Returns (a : A).
Arguments Raises {A} e.
Arguments Returns {A} a.

(** A [requests] response, as far as the script reads it. *)
Record Response := mkResponse {
  status_code : Z;
  content : list Byte.byte
}.

(** An opened [zipfile.ZipFile]: what [testzip()] answers and what
    [extractall(path)] does. *)
Record Archive := mkArchive {
  testzip : Result (option string);
  extractall : string -> Result unit
}.

(** One product entry of the session's answer, a dict of sections, each a
    dict of keys ([app['common']['clienticon']]). *)
Abbreviation App := (gmap string (gmap string string)).

(** The value of [client.get_product_info]: [None] or a dict whose key
    [apps] maps integer identifiers to product entries. *)
Abbreviation ProductInfo := (gmap string (gmap Z App)).

(** External effects, in the order they happen. *)
Inductive Event :=
| EvPrint (line : string)
| EvQuery (app : Z)
| EvHttpGet (url : string)
| EvExtract (dir : string)
| EvRun (cmd : string)
| EvSleep
| EvReadLines (file : string)
| EvMakeDirs (dir : string)
| EvWriteFile (path : string) (body : list Byte.byte)
| EvLogin
| EvLogout.

(** The functions of the Python library whose result depends only on their
    arguments. *)
Class Python := {
  os_path_join : string -> list string -> string;
  os_path_dirname : string -> string;
  int : string -> Result Z
}.

(** What the collaborators answer while one identifier is processed: the
    session client, the file system, the network, the zip library and the
    shell. *)
Record World := mkWorld {
  connected : bool;
  get_product_info : Z -> Result (option ProductInfo);
  os_path_exists : string -> bool;
  os_path_isdir : string -> bool;
  os_access_W_OK : string -> bool;
  requests_get : string -> Result Response;
  zipfile_ZipFile : list Byte.byte -> Result Archive;
  subprocess_run : string -> Result Z;
  readlines : string -> Result (list string)
}.

(** The machine the script runs on: the registry lookup of
    [find_steam_installation], the answer to [anonymous_login], the library
    folders listed in [libraryfolders.vdf], the titles whose manifest in a
    folder carries both a name and an identifier, and the collaborators'
    answers while the [i]-th item of the batch is processed. *)
Record Host := mkHost {
  steam_installation : option string;
  anonymous_login_ok : bool;
  library_folders : list string;
  acf_games : string -> list Game;
  during : nat -> World
}.

(** The mutable state: the shared [failed_icons] list, the files the
    script has written with [open(path, 'wb')], and the trace of effects. *)
Record State := mkState {
  failed_icons : list FailureRecord;
  files : gmap string (list Byte.byte);
  trace : list Event
}.

(* ===================================================================== *)
(** ** The monad of statements: state, exceptions and [exit] *)
(* ===================================================================== *)

(** How a statement ends: normally, with a raised exception, or with
    [SystemExit] (which no [except Exception] clause catches). *)
Inductive Outcome (A : Type) :=
| Ret (a : A) (s : State)
| Raise (e : Exn) (s : State)
| Exit (code : Z) (s : State).
Arguments Ret {A} a s.
Arguments Raise {A} e s.
Arguments Exit {A} code s.

Definition M (A : Type) : Type := State -> Outcome A.

Definition ret {A} (a : A) : M A := fun s => Ret a s.

Definition bind {A B} (m : M A) (k : A -> M B) : M B :=
  fun s =>
    match m s with
    | Ret a s' => k a s'
    | Raise e s' => Raise e s'
    | Exit c s' => Exit c s'
    end.

#[global] Instance M_ret : MRet M := @ret.
#[global] Instance M_bind : MBind M := fun A B k m => bind m k.

Definition raise {A} (e : Exn) : M A := fun s => Raise e s.

Definition exit {A} (code : Z) : M A := fun s => Exit code s.

(** [try: body except <clauses>]: [handler e] is [Some h] when a clause
    matches [e]. *)
Definition try_except {A} (body : M A) (handler : Exn -> option (M A)) : M A :=
  fun s =>
    match body s with
    | Raise e s' =>
        match handler e with
        | Some h => h s'
        | None => Raise e s'
        end
    | o => o
    end.

(** [except Exception as err] *)
Definition except_Exception {A} (h : Exn -> M A) : Exn -> option (M A) :=
  fun e => Some (h e).

(** [except cls as err] for one class. *)
Definition except_class {A} (cls : ExnClass) (h : Exn -> M A)
  : Exn -> option (M A) :=
  fun e =>
    match cls, exn_class e with
    | CalledProcessError, CalledProcessError
    | RequestException, RequestException
    | BadZipFile, BadZipFile
    | KeyError, KeyError
    | IndexError, IndexError
    | ValueError, ValueError
    | OSError, OSError
    | OtherException, OtherException => Some (h e)
    | _, _ => None
    end.

(** Clauses are tried in order. *)
Definition or_except {A} (h1 h2 : Exn -> option (M A)) : Exn -> option (M A) :=
  fun e => match h1 e with Some h => Some h | None => h2 e end.

(** The final state of an outcome. *)
Definition state_of {A} (o : Outcome A) : State :=
  match o with Ret _ s | Raise _ s | Exit _ s => s end.

Definition emit (e : Event) : M unit :=
  fun s => Ret tt (mkState (failed_icons s) (files s) (trace s ++ [e])).

Definition print (line : string) : M unit := emit (EvPrint line).

(** A library call: its result is returned or its exception raised. *)
Definition call {A} (r : Result A) : M A :=
  match r with
  | Raises e => raise e
  | Returns a => ret a
  end.

(** [failed_icons.append(r)] *)
Definition append_failed (r : FailureRecord) : M unit :=
  fun s => Ret tt (mkState (failed_icons s ++ [r]) (files s) (trace s)).

(** [with open(path, 'wb') as f: f.write(body)] *)
Definition write_file (path : string) (body : list Byte.byte) : M unit :=
  fun s => Ret tt (mkState (failed_icons s) (<[path := body]> (files s))
                     (trace s ++ [EvWriteFile path body])).

(** The records appended and the effects emitted between two states. *)
Definition appended (s s' : State) : list FailureRecord :=
  drop (length (failed_icons s)) (failed_icons s').

Definition emitted (s s' : State) : list Event :=
  drop (length (trace s)) (trace s').

Definition get_failed_icons : M (list FailureRecord) :=
  fun s => Ret (failed_icons s) s.

(** [failed_icons = []] *)
Definition new_failed_icons : M unit :=
  fun s => Ret tt (mkState [] (files s) (trace s)).

(** [for x in l: body] with the position of [x] in the batch.  The
    progress bar that [tqdm] draws on the error stream is left out. *)
Fixpoint for_each {A} (body : nat -> A -> M unit) (i : nat) (l : list A) : M unit :=
  match l with
  | [] => ret tt
  | x :: rest => body i x;; for_each body (S i) rest
  end.

(* ===================================================================== *)
(** ** The script *)
(* ===================================================================== *)

Section Script.
Context `{Python}.

(** [download_and_extract(url, path)] *)
Definition download_and_extract (w : World) (url path : string) : M unit :=
  if negb (os_path_isdir w path) || negb (os_access_W_OK w path) then
    raise (mkExn OtherException
             ("The path is either not a directory or is not writeable: " +:+ path))
  else
    try_except
      (emit (EvHttpGet url);;
       response ← call (requests_get w url);
       if negb (status_code response =? 200) then
         raise (mkExn OtherException ("Failed to download the file. URL: " +:+ url))
       else
         zip_file ← call (zipfile_ZipFile w (content response));
         bad ← call (testzip zip_file);
         match bad with
         | Some _ =>
             raise (mkExn OtherException
                      ("The downloaded file is not a valid zip file: " +:+ url))
         | None =>
             emit (EvExtract path);;
             call (extractall zip_file path)
         end)
      (or_except
         (except_class RequestException (fun err =>
            print ("A requests exception occurred:  " +:+ exn_str err)))
      (or_except
         (except_class BadZipFile (fun err =>
            print ("A zip file exception occurred:  " +:+ exn_str err)))
         (except_Exception (fun err =>
            print ("An exception occurred:  " +:+ exn_str err))))).

(** The address both paths build for an icon. *)
Definition icon_url (app_id client_icon_filename : string) : string :=
  "https://cdn.cloudflare.steamstatic.com/steamcommunity/public/images/apps/"
    +:+ app_id +:+ "/" +:+ client_icon_filename +:+ ".ico".

(** Where [download_icon] stores an icon. *)
Definition icon_file_path (steamcmd_install_dir client_icon_filename : string)
  : string :=
  os_path_join steamcmd_install_dir
    ["steam"; "games"; client_icon_filename +:+ ".ico"].

(** [download_icon(app_id, client_icon_filename, client_icon_url,
    failed_icons, game_name, steamcmd_install_dir)]; the list is the
    state's. *)
Definition download_icon (w : World)
    (app_id client_icon_filename client_icon_url game_name
       steamcmd_install_dir : string) : M unit :=
  emit (EvHttpGet client_icon_url);;
  response ← call (requests_get w client_icon_url);
  if status_code response =? 200 then
    let path := icon_file_path steamcmd_install_dir client_icon_filename in
    emit (EvMakeDirs (os_path_dirname path));;
    write_file path (content response);;
    print ("Client Icon saved to: " +:+ path)
  else
    print ("Failed to download Client Icon from URL: " +:+ client_icon_url);;
    append_failed (mkFailure app_id game_name failed_to_download).

(** [subprocess.run(cmd, shell=True, check=True)] *)
Definition run_checked (w : World) (cmd : string) : M unit :=
  emit (EvRun cmd);;
  status ← call (subprocess_run w cmd);
  if status =? 0 then ret tt
  else raise (mkExn CalledProcessError
                ("Command '" +:+ cmd +:+ "' returned non-zero exit status "
                   +:+ pretty status +:+ ".")).

(** [d[k]] on a dict: the value or [KeyError]. *)
Definition subscript {K V} `{Countable K} (key_repr : K -> string)
    (d : gmap K V) (k : K) : M V :=
  match d !! k with
  | Some v => ret v
  | None => raise (mkExn KeyError (key_repr k))
  end.

(** [l[i]] on a list: the element or [IndexError]. *)
Definition index {A} (l : list A) (i : nat) : M A :=
  match l !! i with
  | Some x => ret x
  | None => raise (mkExn IndexError "list index out of range")
  end.

(** Truth value of the session's answer: [None] and the empty dict are
    false. *)
Definition truthy (app_info : option ProductInfo) : bool :=
  match app_info with
  | Some d => if decide (d = ∅) then false else true
  | None => false
  end.

(** The key the fallback parser looks for. *)
Definition clienticon_key : string := PyStr.quoted "clienticon".

(** [ggs]: ten times the filler argument. *)
Fixpoint ggs (n : nat) : string :=
  match n with
  | O => EmptyString
  | S n' => ggs n' +:+ "+gg "
  end.

Definition output_file : string := "steamcmd_output.txt".

(** The fast path: the body of [if client.connected:] up to its
    [return]. *)
Definition fast_path (w : World) (steamcmd_install_dir app_id game_name : string)
  : M unit :=
  try_except
    (n ← call (int app_id);
     emit (EvQuery n);;
     app_info ← call (get_product_info w n);
     if truthy app_info then
       n' ← call (int app_id);
       apps ← subscript (fun k => "'" +:+ k +:+ "'") (default ∅ app_info) "apps";
       app ← subscript pretty apps n';
       match app !! "common" ≫= (.!! "clienticon") with
       | Some client_icon_filename =>
           let client_icon_url := icon_url app_id client_icon_filename in
           print ("[FAST] Client Icon URL for " +:+ game_name +:+ " - "
                    +:+ app_id +:+ ": " +:+ client_icon_url);;
           download_icon w app_id client_icon_filename client_icon_url
             game_name steamcmd_install_dir
       | None => print "[FAST] Unable to find 'clienticon' in the app info"
       end
     else print ("[FAST] Unable to get product info for app ID:  " +:+ app_id))
    (except_Exception (fun err =>
       print ("[FAST] An error occurred: " +:+ exn_str err))).

(** Where SteamCMD is downloaded from. *)
Definition steamcmd_zip_url : string :=
  "https://steamcdn-a.akamaihd.net/client/installer/steamcmd.zip".

(** The block that fetches SteamCMD when [steamcmd.exe] is missing. *)
Definition ensure_steamcmd (w : World)
    (steamcmd_install_dir steamcmd_exe_path : string) : M unit :=
  if negb (os_path_exists w steamcmd_exe_path) then
    print ("SteamCMD not found in the following path: " +:+ steamcmd_install_dir);;
    print "Downloading SteamCMD...";;
    try_except
      (download_and_extract w steamcmd_zip_url steamcmd_install_dir;;
       print "SteamCMD downloaded successfully";;
       let steamcmd_command :=
         PyStr.quoted steamcmd_exe_path +:+ " +quit > " +:+ output_file +:+ " 2>&1" in
       try_except
         (print "Updating SteamCMD...";;
          run_checked w steamcmd_command)
         (except_class CalledProcessError (fun e =>
            print ("[Probably Ignore]Error: " +:+ exn_str e))))
      (except_Exception (fun err =>
         print ("An exception occurred:  " +:+ exn_str err);;
         print "Failed to download SteamCMD. Exiting...";;
         exit 1))
  else
    print ("SteamCMD found in the following path: " +:+ steamcmd_install_dir).

(** The loop over the lines of the output file; the result is
    [foundClientIcon]. *)
Fixpoint scan_lines (w : World)
    (steamcmd_install_dir app_id game_name : string) (lines : list string)
  : M bool :=
  match lines with
  | [] => ret false
  | line :: rest =>
      if PyStr.contains clienticon_key line then
        let parts := PyStr.split PyStr.dquote (PyStr.strip line) in
        if (1 <? length parts)%nat then
          client_icon_filename ← index parts 3;
          let client_icon_url := icon_url app_id client_icon_filename in
          print ("Client Icon URL for " +:+ game_name +:+ " - " +:+ app_id
                   +:+ ": " +:+ client_icon_url);;
          download_icon w app_id client_icon_filename client_icon_url
            game_name steamcmd_install_dir;;
          ret true
        else scan_lines w steamcmd_install_dir app_id game_name rest
      else scan_lines w steamcmd_install_dir app_id game_name rest
  end.

(** The command line that refreshes and prints the metadata of
    [app_id]. *)
Definition app_info_command (steamcmd_exe_path app_id : string) : string :=
  PyStr.quoted steamcmd_exe_path +:+ " " +:+ ggs 10
    +:+ " +app_info_update 1 +app_info_print " +:+ app_id +:+ " " +:+ ggs 10
    +:+ " +quit > " +:+ output_file +:+ " 2>&1".

(** The body of the [try] statement of the fallback path: run the
    utility, wait, read its output and scan it. *)
Definition fallback_try_block (w : World)
    (steamcmd_install_dir steamcmd_command app_id game_name : string) : M unit :=
  run_checked w steamcmd_command;;
  emit EvSleep;;
  emit (EvReadLines output_file);;
  lines ← call (readlines w output_file);
  foundClientIcon ← scan_lines w steamcmd_install_dir app_id game_name lines;
  if negb foundClientIcon then
    print ("Client Icon URL for " +:+ game_name +:+ " - " +:+ app_id
             +:+ " not found in the SteamCMD output.");;
    append_failed (mkFailure app_id game_name icon_not_found)
  else ret tt.

(** The fallback path: everything after the [if client.connected:]
    statement. *)
Definition fallback_path (w : World)
    (steamcmd_install_dir app_id game_name : string) : M unit :=
  let steamcmd_exe_path := os_path_join steamcmd_install_dir ["steamcmd.exe"] in
  ensure_steamcmd w steamcmd_install_dir steamcmd_exe_path;;
  let steamcmd_command := app_info_command steamcmd_exe_path app_id in
  try_except
    (fallback_try_block w steamcmd_install_dir steamcmd_command app_id game_name)
    (except_class CalledProcessError (fun e =>
       print ("Error: " +:+ exn_str e))).

(** [fetch_icon_by_app_id(client, steamPath, app_id, game_name,
    failed_icons)] *)
Definition fetch_icon_by_app_id (w : World) (steamPath app_id game_name : string)
  : M unit :=
  let steamcmd_install_dir := steamPath in
  if connected w then
    fast_path w steamcmd_install_dir app_id game_name
  else
    print "[FAST] Not connected to Steam. Will use SteamCMD to get the app info";;
    fallback_path w steamcmd_install_dir app_id game_name.

(** [get_steam_games(steamPath, printFullList)]; reading the manifests
    is the host's. *)
Definition get_steam_games (h : Host) (steamPath : string) (printFullList : bool)
  : M (list Game) :=
  match library_folders h with
  | [] => print "No Steam library folders found.";; ret []
  | folders =>
      let all_games := concat (map (acf_games h) folders) in
      match all_games with
      | [] => print "No Steam games found in your local libraries."
      | _ =>
          if printFullList then
            print "List of Steam games found in your local libraries:";;
            for_each (fun _ game =>
                print (" - " +:+ game_appid game +:+ ": " +:+ game_name game))
              O all_games
          else ret tt
      end;;
      ret all_games
  end.

Definition reason_str (r : Reason) : string :=
  match r with
  | icon_not_found => "icon_not_found"
  | failed_to_download => "failed_to_download"
  end.

(** The line that ends the report of a run with failures. *)
Definition retry_command (failed_app_ids : list string) : string :=
  "python .\SteamIconsFix.py " +:+ PyStr.join " " failed_app_ids.

(** The end of [main]: the summary printed after the batch. *)
Definition report (noIcon : bool) : M unit :=
  failed ← get_failed_icons;
  match failed with
  | [] =>
      if noIcon then
        print "No icons were downloaded as you did not specify any app_id or were only listing games"
      else print "All icons were downloaded successfully"
  | _ =>
      print (String "010" "Failed icons: ");;
      for_each (fun _ game =>
          print ("AppID: " +:+ appid game +:+ ", Name: " +:+ name game
                   +:+ ", Reason: " +:+ reason_str (reason game)))
        O failed;;
      let failed_app_ids := map appid failed in
      print (String "010"
               "To retry downloading icons for the failed games, run the following command:");;
      print (retry_command failed_app_ids)
  end.

(** The identifier of the Steam Common Redistributables. *)
Definition redistributables : string := "228980".

(** The body of the loop over the identifiers given on the command
    line. *)
Definition process_app_id (h : Host) (steam_path : string) (games : list Game)
    (i : nat) (app_id : string) : M unit :=
  if String.eqb app_id redistributables then
    print ("Skipping app_id=" +:+ app_id
             +:+ " (Steam Common Redistributables) as it is not a game/app.")
  else
    match find (fun game => String.eqb (game_appid game) app_id) games with
    | Some game =>
        fetch_icon_by_app_id (during h i) steam_path (game_appid game) (game_name game)
    | None =>
        print ("A game with app_id=" +:+ app_id
                 +:+ " was not found in your Steam libraries but I will try to download the icon anyway.");;
        fetch_icon_by_app_id (during h i) steam_path app_id EmptyString
    end.

(** The three ways [main] treats its arguments: list the installed
    titles, fetch the icons of all of them, or fetch the icons of the
    identifiers given.  The result is [noIcon]. *)
Definition process_arguments (h : Host) (steam_path : string)
    (app_ids : list string) : M bool :=
  if existsb (String.eqb "list") app_ids && (length app_ids =? 1)%nat then
    all_games ← get_steam_games h steam_path true;
    print (String "010" "Total number of games installed: "
             +:+ pretty (length all_games));;
    ret true
  else if existsb (String.eqb "all") app_ids && (length app_ids =? 1)%nat then
    all_games ← get_steam_games h steam_path true;
    print (String "010" "Total number of games installed: "
             +:+ pretty (length all_games));;
    for_each (fun i game =>
        fetch_icon_by_app_id (during h i) steam_path
          (game_appid game) (game_name game))
      O all_games;;
    ret false
  else
    games ← get_steam_games h steam_path false;
    for_each (process_app_id h steam_path games) O app_ids;;
    ret false.

(** [main()], with [sys.argv] as argument. *)
Definition main (h : Host) (argv : list string) : M unit :=
  if (length argv <? 2)%nat then
    print "Usage: python script.py [<app_id> ...] <list> <all>"
  else
    match steam_installation h with
    | Some (String _ _ as steam_path) =>
        print ("Steam is installed in this path: " +:+ steam_path);;
        emit EvLogin;;
        (if anonymous_login_ok h then
           print "Logged in to Steam anonymously and successfully"
         else
           print "Could not log in to Steam anonymously. Will use SteamCMD to get the app info");;
        new_failed_icons;;
        let app_ids := tail argv in
        noIcon ← process_arguments h steam_path app_ids;
        report noIcon;;
        emit EvLogout
    | _ => print "Steam installation not found. Exiting..."
    end.

End Script.

(** The state a run starts from: no failure yet, nothing printed, and
    the icon files already on disk. *)
Definition initial (fs : gmap string (list Byte.byte)) : State :=
  mkState [] fs [].

(* ===================================================================== *)
(** ** A concrete interpreter library and hosts, for running the model *)
(* ===================================================================== *)

Module Sample.

(** Decimal value of a string of digits. *)
Fixpoint digits (acc : Z) (s : string) : option Z :=
  match s with
  | EmptyString => Some acc
  | String c r =>
      let n := Z.of_N (N_of_ascii c) in
      if (48 <=? n) && (n <=? 57) then digits (10 * acc + (n - 48)) r
      else None
  end.

Definition backslash : ascii := "092"%char.

(** Everything before the last backslash. *)
Fixpoint dirname (path : string) : string :=
  match path with
  | EmptyString => EmptyString
  | String c r =>
      if (0 <? PyStr.count backslash r)%nat then String c (dirname r)
      else EmptyString
  end.

(** A library for Windows paths without drive changes: components are
    joined with a backslash; [int] reads unsigned decimal literals. *)
Definition ntpath : Python := {|
  os_path_join dir parts :=
    fold_left (fun acc p => acc +:+ String backslash p) parts dir;
  os_path_dirname := dirname;
  int s :=
    match s with
    | EmptyString =>
        Raises (mkExn ValueError "invalid literal for int() with base 10: ''")
    | _ =>
        match digits 0 s with
        | Some n => Returns n
        | None =>
            Raises (mkExn ValueError
                      ("invalid literal for int() with base 10: '" +:+ s +:+ "'"))
        end
    end
|}.

Definition steam_dir : string := "C:\Steam".

(** A line of SteamCMD output: two tabs, the quoted key, two tabs, the
    quoted value, a newline. *)
Definition key_value_line (key value : string) : string :=
  String "009" (String "009" (PyStr.quoted key +:+
    String "009" (String "009" (PyStr.quoted value +:+ String "010" EmptyString)))).

(** The CDN answers every request with [status] and [body]. *)
Definition cdn (status : Z) (body : list Byte.byte) : string -> Result Response :=
  fun _ => Returns (mkResponse status body).

(** No session; SteamCMD is installed, exits with [status] and leaves
    [lines] in the output file. *)
Definition offline (status : Z) (lines : list string)
    (get : string -> Result Response) : World := {|
  connected := false;
  get_product_info _ := Returns None;
  os_path_exists _ := true;
  os_path_isdir _ := true;
  os_access_W_OK _ := true;
  requests_get := get;
  zipfile_ZipFile _ := Raises (mkExn BadZipFile "File is not a zip file");
  subprocess_run _ := Returns status;
  readlines _ := Returns lines
|}.

(** A connected session that answers every query with [info]. *)
Definition online (info : Result (option ProductInfo))
    (get : string -> Result Response) : World := {|
  connected := true;
  get_product_info _ := info;
  os_path_exists _ := true;
  os_path_isdir _ := true;
  os_access_W_OK _ := true;
  requests_get := get;
  zipfile_ZipFile _ := Raises (mkExn BadZipFile "File is not a zip file");
  subprocess_run _ := Returns 0;
  readlines _ := Returns []
|}.

(** The session's answer for one product with the given keys in its
    [common] section. *)
Definition product (app : Z) (common : gmap string string) : option ProductInfo :=
  Some {[ "apps" := {[ app := {[ "common" := common ]} ]} ]}.

(** A host with Steam in [steam_dir], one library folder holding
    [games], and the same collaborators for every item. *)
Definition host (games : list Game) (w : nat -> World) : Host := {|
  steam_installation := Some steam_dir;
  anonymous_login_ok := false;
  library_folders := [steam_dir +:+ "\steamapps"];
  acf_games _ := games;
  during := w
|}.

(** No session and no SteamCMD yet: the archive that is downloaded is
    not a zip file, so nothing is extracted and running
    [steamcmd.exe] fails. *)
Definition fresh_install : World := {|
  connected := false;
  get_product_info _ := Returns None;
  os_path_exists _ := false;
  os_path_isdir _ := true;
  os_access_W_OK _ := true;
  requests_get := cdn 200 [];
  zipfile_ZipFile _ := Raises (mkExn BadZipFile "File is not a zip file");
  subprocess_run _ := Returns 1;
  readlines _ := Returns []
|}.

(** A transport error of [requests]. *)
Definition refused : Exn := mkExn RequestException "Connection aborted.".

(** A line of output with the quoted key and nothing after it. *)
Definition key_only_line : string :=
  String "009" (String "009" (PyStr.quoted "clienticon" +:+ String "010" EmptyString)).

Definition script : string := "SteamIconsFix.py".

End Sample.

(* ===================================================================== *)
(** ** Footprints: what a statement may add to the state *)
(* ===================================================================== *)

(** [s'] is [s] with effects satisfying [PE] and failure records
    satisfying [PR] added at the end; the files are the same unless
    [wr] allows writing. *)
Definition grows (PE : Event -> Prop) (PR : FailureRecord -> Prop) (wr : bool)
    (s s' : State) : Prop :=
  exists evs recs,
    trace s' = trace s ++ evs /\ failed_icons s' = failed_icons s ++ recs /\
    Forall PE evs /\ Forall PR recs /\ (wr = false -> files s' = files s).

(** However [m] ends, it has only added such effects and records. *)
Definition only (PE : Event -> Prop) (PR : FailureRecord -> Prop) (wr : bool)
    {A} (m : M A) : Prop :=
  forall s, grows PE PR wr s (state_of (m s)).

Definition handles (PE : Event -> Prop) (PR : FailureRecord -> Prop) (wr : bool)
    {A} (handler : Exn -> option (M A)) : Prop :=
  forall e h, handler e = Some h -> only PE PR wr h.

(** The effects of fetching an archive from [url], unpacking it and
    running commands. *)
Definition setup_event (url : string) (e : Event) : Prop :=
  match e with
  | EvPrint _ | EvExtract _ | EvRun _ => True
  | EvHttpGet u => u = url
  | _ => False
  end.

Definition print_event (e : Event) : Prop :=
  match e with
  | EvPrint _ => True
  | _ => False
  end.

Definition any_event (e : Event) : Prop := True.

Definition no_record (r : FailureRecord) : Prop := False.

Definition any_record (r : FailureRecord) : Prop := True.

(** The records an acquisition for [app_id] and [game_name] may add. *)
Definition record_of (app_id game_name : string) (r : FailureRecord) : Prop :=
  appid r = app_id /\ name r = game_name.

(* ===================================================================== *)
(** ** Notions used in the statements *)
(* ===================================================================== *)

(** The client-icon field of the session's answer for [app_id], when
    the query succeeds and the answer has the product entry, its [common]
    section and the field. *)
Definition client_icon_of `{Python} (w : World) (app_id : string) : option string :=
  match int app_id with
  | Returns n =>
      match get_product_info w n with
      | Returns (Some d) =>
          apps ← d !! "apps";
          entry ← (apps : gmap Z App) !! n;
          common ← (entry : App) !! "common";
          (common : gmap string string) !! "clienticon"
      | _ => None
      end
  | Raises _ => None
  end.


(** Effects other than a request for an icon of [app_id]. *)
Definition quiet_event (app_id : string) (e : Event) : Prop :=
  forall stem, e <> EvHttpGet (icon_url app_id stem).


(* ===================================================================== *)
(** ** Further notions: how statements end and what one acquisition yields *)
(* ===================================================================== *)

(** [m] can end the process only with a status that satisfies [P]. *)
Definition exits_with (P : Z -> Prop) {A} (m : M A) : Prop :=
  forall s c s', m s = Exit c s' -> P c.

(** The effects of the fast path for [app_id]: the query, printed lines,
    a request for an icon of [app_id], and the storing of an icon. *)
Definition fast_event (app_id : string) (e : Event) : Prop :=
  match e with
  | EvQuery _ | EvPrint _ | EvMakeDirs _ | EvWriteFile _ _ => True
  | EvHttpGet u => exists stem, u = icon_url app_id stem
  | _ => False
  end.


(** The titles [get_steam_games] returns on a host. *)
Definition games_of (h : Host) : list Game :=
  concat (map (acf_games h) (library_folders h)).

(** The effects of the fast path before the download step. *)
Definition query_or_print (e : Event) : Prop :=
  match e with
  | EvQuery _ | EvPrint _ => True
  | _ => False
  end.


(** The command that lets a fresh SteamCMD update itself. *)
Definition quit_command (steamcmd_exe_path : string) : string :=
  PyStr.quoted steamcmd_exe_path +:+ " +quit > " +:+ output_file +:+ " 2>&1".

(** Why fetching SteamCMD can end the process: the installation
    directory cannot be written, or the shell call of the update raises
    something else than [CalledProcessError]. *)
Definition steamcmd_unobtainable `{Python} (w : World) (dir : string) : Prop :=
  os_path_isdir w dir = false \/
  os_access_W_OK w dir = false \/
  exists e,
    subprocess_run w (quit_command (os_path_join dir ["steamcmd.exe"])) = Raises e /\
    exn_class e <> CalledProcessError.

Module MoreSamples.

(** No session, no SteamCMD, and an installation directory that cannot
    be written. *)
Definition read_only : World := {|
  connected := false;
  get_product_info _ := Returns None;
  os_path_exists _ := false;
  os_path_isdir _ := true;
  os_access_W_OK _ := false;
  requests_get := Sample.cdn 200 [];
  zipfile_ZipFile _ := Raises (mkExn BadZipFile "File is not a zip file");
  subprocess_run _ := Returns 1;
  readlines _ := Returns []
|}.

End MoreSamples.

(** Printed lines and the opening and closing of the session. *)
Definition session_or_print (e : Event) : Prop :=
  match e with
  | EvPrint _ | EvLogin | EvLogout => True
  | _ => False
  end.

(** The name [main] passes along with an identifier given on the command
    line: that of the first installed title with this identifier, or the
    empty string. *)
Definition display_name (games : list Game) (app_id : string) : string :=
  match find (fun game => String.eqb (game_appid game) app_id) games with
  | Some game => game_name game
  | None => EmptyString
  end.

(* ===================================================================== *)
(** ** The library folders *)
(* ===================================================================== *)

Definition backslash : ascii := "092"%char.

(** Two backslashes, and one. *)
Definition two_backslashes : string := String backslash (String backslash EmptyString).
Definition one_backslash : string := String backslash EmptyString.

Section LibraryFolders.
Context `{Python}.

(** The loop of [get_steam_library_folders] over the lines of the VDF
    file; [library_folders] is the list built so far. *)
Fixpoint library_folder_lines (lines : list string) (library_folders : list string)
  : M (list string) :=
  match lines with
  | [] => ret library_folders
  | line :: rest =>
      if PyStr.contains "path" line then
        let path := PyStr.strip line in
        path ← index (PyStr.split PyStr.dquote path) 3;
        let path := PyStr.replace two_backslashes one_backslash path in
        let path := os_path_join path ["steamapps"] in
        library_folder_lines rest (library_folders ++ [path])
      else library_folder_lines rest library_folders
  end.

(** [get_steam_library_folders(steamPath)] *)
Definition get_steam_library_folders (w : World) (steamPath : string)
  : M (list string) :=
  let vdf_file_path := steamPath +:+ "\steamapps\libraryfolders.vdf" in
  if os_path_exists w vdf_file_path then
    emit (EvReadLines vdf_file_path);;
    lines ← call (readlines w vdf_file_path);
    library_folder_lines lines []
  else ret [].

End LibraryFolders.

(** How a VDF file writes a path: every backslash twice. *)
Fixpoint double_backslashes (s : string) : string :=
  match s with
  | EmptyString => EmptyString
  | String c r =>
      if Ascii.eqb c backslash then String c (String c (double_backslashes r))
      else String c (double_backslashes r)
  end.

(** A line of the VDF file and the value [get_steam_library_folders]
    takes from it: none when the line does not hold the word [path];
    the second quoted token when the line holds the word and starts, after
    text without double quotes, with two quoted tokens. *)
Inductive vdf_line : string -> option string -> Prop :=
| vdf_other line :
    PyStr.contains "path" line = false -> vdf_line line None
| vdf_path pre key mid value post :
    PyStr.count PyStr.dquote pre = 0%nat ->
    PyStr.count PyStr.dquote key = 0%nat ->
    PyStr.count PyStr.dquote mid = 0%nat ->
    PyStr.count PyStr.dquote value = 0%nat ->
    PyStr.contains "path"
      (pre +:+ PyStr.quoted key +:+ mid +:+ PyStr.quoted value +:+ post) = true ->
    vdf_line (pre +:+ PyStr.quoted key +:+ mid +:+ PyStr.quoted value +:+ post)
      (Some value).

(* ===================================================================== *)
(** ** Facts about the string primitives *)
(* ===================================================================== *)


Lemma count_lstrip c s :
  PyStr.is_space c = false -> PyStr.count c (PyStr.lstrip s) = PyStr.count c s.
Proof.
  intros Hc. induction s as [|a r IH]; simpl; [reflexivity|].
  destruct (PyStr.is_space a) eqn:Ha; [|reflexivity].
  rewrite IH. destruct (Ascii.eqb_spec a c) as [->|]; [congruence|reflexivity].
Qed.







Example split_value_line :
  PyStr.split PyStr.dquote (PyStr.strip (Sample.key_value_line "clienticon" "abc123"))
  = [EmptyString; "clienticon"; String "009" (String "009" EmptyString); "abc123";
     EmptyString].
Proof. reflexivity. Qed.

(* ===================================================================== *)
(** ** Footprint rules *)
(* ===================================================================== *)

Section Footprint.
Variable PE : Event -> Prop.
Variable PR : FailureRecord -> Prop.
Variable wr : bool.

Lemma grows_refl s : grows PE PR wr s s.
Proof. exists [], []. now rewrite !app_nil_r. Qed.

Lemma grows_trans s1 s2 s3 :
  grows PE PR wr s1 s2 -> grows PE PR wr s2 s3 -> grows PE PR wr s1 s3.
Proof.
  intros (e1 & r1 & Ht1 & Hf1 & He1 & Hr1 & Hw1)
         (e2 & r2 & Ht2 & Hf2 & He2 & Hr2 & Hw2).
  exists (e1 ++ e2), (r1 ++ r2).
  rewrite Ht2, Ht1, Hf2, Hf1, <- !app_assoc.
  repeat split; try reflexivity; try (now apply Forall_app).
  intros Hwr. now rewrite Hw2, Hw1.
Qed.

Lemma only_ret {A} (a : A) : only PE PR wr (mret a).
Proof. intros s. apply grows_refl. Qed.

Lemma only_raise {A} e : only PE PR wr (@raise A e).
Proof. intros s. apply grows_refl. Qed.

Lemma only_exit {A} c : only PE PR wr (@exit A c).
Proof. intros s. apply grows_refl. Qed.

Lemma only_call {A} (r : Result A) : only PE PR wr (call r).
Proof. destruct r; [apply only_raise | apply only_ret]. Qed.

Lemma only_emit e : PE e -> only PE PR wr (emit e).
Proof.
  intros He s. exists [e], []. simpl. rewrite app_nil_r.
  repeat split; auto.
Qed.

Lemma only_print line : PE (EvPrint line) -> only PE PR wr (print line).
Proof. apply only_emit. Qed.

Lemma only_append r : PR r -> only PE PR wr (append_failed r).
Proof.
  intros Hr s. exists [], [r]. simpl. rewrite app_nil_r.
  repeat split; auto.
Qed.

Lemma only_write path body :
  PE (EvWriteFile path body) -> wr = true -> only PE PR wr (write_file path body).
Proof.
  intros He Hw s. exists [EvWriteFile path body], []. simpl. rewrite app_nil_r.
  repeat split; auto. congruence.
Qed.

Lemma only_get_failed : only PE PR wr get_failed_icons.
Proof. intros s. apply grows_refl. Qed.

Lemma only_bind {A B} (m : M A) (k : A -> M B) :
  only PE PR wr m -> (forall a, only PE PR wr (k a)) -> only PE PR wr (m ≫= k).
Proof.
  intros Hm Hk s. specialize (Hm s).
  unfold mbind, M_bind, bind. destruct (m s) as [a s'|e s'|c s']; simpl in *; auto.
  eapply grows_trans; [exact Hm | apply Hk].
Qed.

Lemma only_try {A} (body : M A) handler :
  only PE PR wr body -> handles PE PR wr handler ->
  only PE PR wr (try_except body handler).
Proof.
  intros Hm Hh s. specialize (Hm s).
  unfold try_except. destruct (body s) as [a s'|e s'|c s']; simpl in *; auto.
  destruct (handler e) as [h|] eqn:Hhe; simpl; auto.
  eapply grows_trans; [exact Hm | eapply Hh; eauto].
Qed.

Lemma handles_Exception {A} (h : Exn -> M A) :
  (forall e, only PE PR wr (h e)) -> handles PE PR wr (except_Exception h).
Proof. intros Hh e h' [= <-]. apply Hh. Qed.

Lemma handles_class {A} cls (h : Exn -> M A) :
  (forall e, only PE PR wr (h e)) -> handles PE PR wr (except_class cls h).
Proof.
  intros Hh e h'. unfold except_class.
  destruct cls, (exn_class e); intros [= <-]; apply Hh.
Qed.

Lemma handles_or {A} (h1 h2 : Exn -> option (M A)) :
  handles PE PR wr h1 -> handles PE PR wr h2 -> handles PE PR wr (or_except h1 h2).
Proof.
  intros H1 H2 e h. unfold or_except.
  destruct (h1 e) eqn:He1; [intros [= <-]; eauto | eauto].
Qed.

Lemma only_for_each {A} (body : nat -> A -> M unit) l :
  (forall i x, In x l -> only PE PR wr (body i x)) ->
  forall i, only PE PR wr (for_each body i l).
Proof.
  induction l as [|x l IH]; intros Hb i; simpl.
  - apply only_ret.
  - apply only_bind; [apply Hb; now left|].
    intros _. apply IH. intros j y Hy. apply Hb. now right.
Qed.

End Footprint.

Lemma grows_weaken (PE PE' : Event -> Prop) (PR PR' : FailureRecord -> Prop)
    (wr wr' : bool) s s' :
  (forall e, PE e -> PE' e) -> (forall r, PR r -> PR' r) ->
  (wr' = false -> wr = false) ->
  grows PE PR wr s s' -> grows PE' PR' wr' s s'.
Proof.
  intros HE HR HW (evs & recs & Ht & Hf & He & Hr & Hw).
  exists evs, recs. repeat split; auto; eapply Forall_impl; eauto.
Qed.

Lemma only_weaken (PE PE' : Event -> Prop) (PR PR' : FailureRecord -> Prop)
    (wr wr' : bool) {A} (m : M A) :
  (forall e, PE e -> PE' e) -> (forall r, PR r -> PR' r) ->
  (wr' = false -> wr = false) ->
  only PE PR wr m -> only PE' PR' wr' m.
Proof. intros HE HR HW Hm s. eapply grows_weaken; eauto. Qed.

(** The added parts of a grown state. *)
Lemma grows_appended PE PR wr s s' :
  grows PE PR wr s s' -> Forall PR (appended s s').
Proof.
  intros (evs & recs & _ & Hf & _ & Hr & _). unfold appended.
  now rewrite Hf, drop_app_length.
Qed.

Lemma grows_emitted PE PR wr s s' :
  grows PE PR wr s s' -> Forall PE (emitted s s').
Proof.
  intros (evs & recs & Ht & _ & He & _). unfold emitted.
  now rewrite Ht, drop_app_length.
Qed.

Lemma grows_files PE PR s s' :
  grows PE PR false s s' -> files s' = files s.
Proof. intros (evs & recs & _ & _ & _ & _ & Hw). now apply Hw. Qed.

(* ===================================================================== *)
(** ** Footprints of the script's functions *)
(* ===================================================================== *)

Create HintDb footprint.

#[local] Hint Unfold any_event any_record no_record record_of : footprint.

Ltac side_condition :=
  solve [ exact I | simpl; exact I | reflexivity | split; reflexivity
        | autounfold with footprint; simpl; auto ].

Ltac footprint :=
  repeat first
    [ apply only_ret | apply only_raise | apply only_exit | apply only_call
    | apply only_get_failed
    | apply only_print; side_condition
    | apply only_emit; side_condition
    | apply only_append; side_condition
    | apply only_write; [side_condition|reflexivity]
    | apply only_bind; [|intros ?]
    | apply only_try
    | apply handles_or
    | apply handles_class; intros ?
    | apply handles_Exception; intros ?
    | match goal with
      | |- only _ _ _ (if ?b then _ else _) => destruct b
      | |- only _ _ _ (match ?x with _ => _ end) => destruct x
      end ].

Section ScriptFootprints.
Context `{Python}.

Lemma download_and_extract_only w url path :
  only (setup_event url) no_record false (download_and_extract w url path).
Proof. unfold download_and_extract. footprint. Qed.

Lemma run_checked_only w cmd url :
  only (setup_event url) no_record false (run_checked w cmd).
Proof. unfold run_checked. footprint. Qed.

Lemma ensure_steamcmd_only w dir exe :
  only (setup_event steamcmd_zip_url) no_record false (ensure_steamcmd w dir exe).
Proof.
  unfold ensure_steamcmd.
  footprint; auto using download_and_extract_only, run_checked_only.
Qed.

Lemma download_icon_only w app_id fn url game dir :
  only any_event (eq (mkFailure app_id game failed_to_download)) true
    (download_icon w app_id fn url game dir).
Proof. unfold download_icon. footprint. Qed.

Lemma scan_lines_only w dir app_id game lines :
  only any_event (eq (mkFailure app_id game failed_to_download)) true
    (scan_lines w dir app_id game lines).
Proof.
  induction lines as [|line rest IH]; simpl; [apply only_ret|].
  footprint; try exact IH.
  all: first [apply download_icon_only | unfold index; footprint].
Qed.

Lemma fast_path_only w dir app_id game :
  only any_event (eq (mkFailure app_id game failed_to_download)) true
    (fast_path w dir app_id game).
Proof.
  unfold fast_path. footprint; try (unfold subscript; footprint).
  all: apply download_icon_only.
Qed.

Lemma fallback_path_only w dir app_id game :
  only any_event (record_of app_id game) true (fallback_path w dir app_id game).
Proof.
  unfold fallback_path.
  apply only_bind.
  { eapply only_weaken; [| | |apply ensure_steamcmd_only]; [easy|intros ? []|easy]. }
  intros _. apply only_try; [|footprint]. unfold fallback_try_block.
  apply only_bind.
  { eapply only_weaken; [| | |apply (run_checked_only _ _ EmptyString)];
      [easy|intros ? []|easy]. }
  intros _. do 2 (apply only_bind; [footprint|intros _]).
  apply only_bind; [apply only_call|intros lines].
  apply only_bind.
  { eapply only_weaken; [| | |apply scan_lines_only]; [easy|now intros ? <-|easy]. }
  intros found. footprint.
Qed.

Lemma fetch_icon_by_app_id_only w dir app_id game :
  only any_event (record_of app_id game) true (fetch_icon_by_app_id w dir app_id game).
Proof.
  unfold fetch_icon_by_app_id. destruct (connected w).
  - eapply only_weaken; [| | |apply fast_path_only]; [easy|now intros ? <-|easy].
  - apply only_bind; [footprint|intros _]. apply fallback_path_only.
Qed.

End ScriptFootprints.

(* ===================================================================== *)
(** ** Running the statements of the monad *)
(* ===================================================================== *)

Ltac run_step :=
  unfold mbind, M_bind, bind, mret, M_ret, ret, try_except, call, raise, emit, print,
    append_failed, write_file, subscript, index, except_Exception; simpl.

(** Closes a goal about a concrete list: membership, or its negation. *)
Ltac in_list :=
  lazymatch goal with
  | |- ~ _ =>
      let Hin := fresh "Hin" in
      intros Hin; apply list_elem_of_In in Hin; vm_compute in Hin;
      repeat (destruct Hin as [Hin|Hin]; [discriminate Hin|]); exact Hin
  | |- _ => apply list_elem_of_In; vm_compute; repeat first [left; reflexivity | right]
  end.

(* ===================================================================== *)
(** ** The fast path *)
(* ===================================================================== *)

Ltac silent :=
  unfold emit; simpl; eexists; split; [reflexivity|]; simpl;
  repeat split; eexists; unfold emitted; simpl;
  rewrite <- ?app_assoc, drop_app_length; simpl; eauto.

(** C3. When the session is connected and the metadata gives no client
    icon for the identifier (the query or the conversion of the identifier
    raises, the answer is empty, the product entry, its [common] section or
    the [clienticon] key is absent), [fetch_icon_by_app_id] returns
    normally without taking the fallback path: the failure list and the
    files are unchanged, and apart from the query itself the only effect is
    one printed line. *)
Theorem connected_without_icon_is_silent `{Python} w dir app nm s :
  connected w = true ->
  client_icon_of w app = None ->
  exists s',
    fetch_icon_by_app_id w dir app nm s = Ret tt s' /\
    failed_icons s' = failed_icons s /\
    files s' = files s /\
    exists msg, emitted s s' = [EvPrint msg] \/
                exists n, emitted s s' = [EvQuery n; EvPrint msg].
Proof.
  unfold fetch_icon_by_app_id, fast_path, client_icon_of. intros -> Hnone.
  run_step.
  destruct (int app) as [e|n]; simpl; [silent|].
  destruct (get_product_info w n) as [e|[d|]]; simpl; [silent| |silent].
  destruct (decide (d = ∅)); [silent|].
  destruct (d !! "apps") as [apps|]; simpl in *; [|silent].
  destruct (apps !! n) as [entry|]; simpl in *; [|silent].
  destruct (entry !! "common") as [common|]; simpl in *; [|silent].
  rewrite Hnone. silent.
Qed.

Lemma connected_without_icon_is_silent_witness :
  let w := Sample.online (Returns (Sample.product 730 ∅)) (Sample.cdn 200 []) in
  exists s',
    fetch_icon_by_app_id (H:=Sample.ntpath) w Sample.steam_dir "730" "CS" (initial ∅)
      = Ret tt s' /\
    failed_icons s' = [] /\ files s' = ∅ /\
    exists msg, emitted (initial ∅) s' = [EvPrint msg] \/
                exists n, emitted (initial ∅) s' = [EvQuery n; EvPrint msg].
Proof.
  intros w.
  apply (connected_without_icon_is_silent (H:=Sample.ntpath) w Sample.steam_dir
           "730" "CS" (initial ∅)); reflexivity.
Defined.

(* ===================================================================== *)
(** ** Runs that show where the script departs from its intent *)
(* ===================================================================== *)

(** C10. A line that holds the quoted key and no quoted value passes the
    guard [len(parts) > 1] with three parts only, so [parts[3]] is out of
    range: [fetch_icon_by_app_id] raises [IndexError]. *)
Theorem key_without_value_is_out_of_range :
  let parts := PyStr.split PyStr.dquote (PyStr.strip Sample.key_only_line) in
  PyStr.contains clienticon_key Sample.key_only_line = true /\
  (1 <? length parts)%nat = true /\
  length parts = 3%nat /\
  parts !! 3%nat = None /\
  exists s',
    fetch_icon_by_app_id (H:=Sample.ntpath)
      (Sample.offline 0 [Sample.key_only_line] (Sample.cdn 200 []))
      Sample.steam_dir "730" EmptyString (initial ∅)
    = Raise (mkExn IndexError "list index out of range") s'.
Proof. repeat split. eexists. vm_compute. reflexivity. Qed.

(** C1. On the fallback path only [CalledProcessError] is caught: when
    the icon download raises a transport error, the exception leaves
    [fetch_icon_by_app_id] and ends [main]; the next identifier is never
    processed and no report is printed. *)
Theorem fallback_download_error_escapes :
  let w := Sample.offline 0 [Sample.key_value_line "clienticon" "abc"]
             (fun _ => Raises Sample.refused) in
  (exists s',
     fetch_icon_by_app_id (H:=Sample.ntpath) w Sample.steam_dir "10" EmptyString
       (initial ∅) = Raise Sample.refused s') /\
  (exists s',
     main (H:=Sample.ntpath) (Sample.host [] (fun _ => w))
       [Sample.script; "10"; "20"] (initial ∅) = Raise Sample.refused s' /\
     (EvRun (app_info_command "C:\Steam\steamcmd.exe" "10") ∈ trace s') /\
     (EvRun (app_info_command "C:\Steam\steamcmd.exe" "20") ∉ trace s') /\
     (EvLogout ∉ trace s')).
Proof.
  split; [eexists; vm_compute; reflexivity|].
  eexists. split; [vm_compute; reflexivity|]. simpl. repeat split; in_list.
Qed.

(** C7. When the downloaded archive is not a zip file,
    [download_and_extract] prints the error and returns, so the handler
    that exits is not reached: the script reports a successful download,
    runs the missing utility, and goes on with the next identifier. *)
Theorem bad_archive_does_not_stop_the_run :
  exists s',
    main (H:=Sample.ntpath) (Sample.host [] (fun _ => Sample.fresh_install))
      [Sample.script; "10"; "20"] (initial ∅) = Ret tt s' /\
    (EvPrint "A zip file exception occurred:  File is not a zip file" ∈ trace s') /\
    (EvPrint "SteamCMD downloaded successfully" ∈ trace s') /\
    (EvPrint "Failed to download SteamCMD. Exiting..." ∉ trace s') /\
    (EvRun (app_info_command "C:\Steam\steamcmd.exe" "20") ∈ trace s') /\
    (EvPrint "All icons were downloaded successfully" ∈ trace s').
Proof.
  eexists. split; [vm_compute; reflexivity|]. simpl. repeat split; in_list.
Qed.

(** C6. With [all], the installed titles are passed to
    [fetch_icon_by_app_id] without the test on 228980: an installed
    Steamworks Common Redistributables entry is looked up, recorded as a
    failure and listed in the retry command. *)
Theorem all_mode_processes_redistributables :
  let game := mkGame "Steamworks Common Redistributables" redistributables in
  exists s',
    main (H:=Sample.ntpath)
      (Sample.host [game] (fun _ => Sample.offline 0 [] (Sample.cdn 404 [])))
      [Sample.script; "all"] (initial ∅) = Ret tt s' /\
    (EvRun (app_info_command "C:\Steam\steamcmd.exe" redistributables)
      ∈ trace s') /\
    failed_icons s'
      = [mkFailure redistributables "Steamworks Common Redistributables" icon_not_found] /\
    (EvPrint (retry_command [redistributables]) ∈ trace s').
Proof.
  eexists. split; [vm_compute; reflexivity|]. simpl. repeat split; in_list.
Qed.

(* ===================================================================== *)
(** ** The fallback path *)
(* ===================================================================== *)

Section FallbackPath.
Context `{Python}.





Lemma no_record_nil recs : Forall no_record recs -> recs = [].
Proof. destruct recs as [|r recs]; [reflexivity|]. intros Hf. inversion Hf as [|? ? []]. Qed.

Lemma setup_not_read url file evs :
  Forall (setup_event url) evs -> EvReadLines file ∉ evs.
Proof.
  intros Hf Hin. rewrite Forall_forall in Hf. exact (Hf _ Hin).
Qed.



End FallbackPath.

(* ===================================================================== *)
(** ** The download step *)
(* ===================================================================== *)

Section Download.
Context `{Python}.

Lemma icon_url_not_zip app stem : icon_url app stem <> steamcmd_zip_url.
Proof. unfold icon_url, steamcmd_zip_url. simpl. discriminate. Qed.

Lemma setup_not_icon app stem evs :
  Forall (setup_event steamcmd_zip_url) evs -> EvHttpGet (icon_url app stem) ∉ evs.
Proof.
  intros Hf Hin. rewrite Forall_forall in Hf. apply Hf in Hin. simpl in Hin.
  exact (icon_url_not_zip _ _ Hin).
Qed.

Lemma ensure_steamcmd_outcome w dir exe s :
  exists s1, ensure_steamcmd w dir exe s = Ret tt s1 \/
             exists c, ensure_steamcmd w dir exe s = Exit c s1.
Proof.
  unfold ensure_steamcmd. destruct (negb _); run_step; [|eauto].
  match goal with |- context [match ?b with Ret _ _ => _ | _ => _ end] =>
    destruct b as [[] s1|e s1|c s1] end; simpl; eauto.
Qed.

End Download.

(* ===================================================================== *)
(** ** A failing utility *)
(* ===================================================================== *)

Section FailedTool.
Context `{Python}.

(** C8, amended. When the metadata command exits with a non-zero
    status, acquisition for the identifier ends there: the output file is
    not read, no icon is requested, no file is written and no record is
    appended.  Unless fetching the utility ended the process, the function
    returns normally and its last effects are the command and the printed
    error. *)
Theorem failed_tool_ends_acquisition w dir app nm s status :
  connected w = false ->
  subprocess_run w (app_info_command (os_path_join dir ["steamcmd.exe"]) app)
    = Returns status ->
  status <> 0 ->
  let cmd := app_info_command (os_path_join dir ["steamcmd.exe"]) app in
  let o := fetch_icon_by_app_id w dir app nm s in
  let s' := state_of o in
  (EvReadLines output_file ∉ emitted s s') /\
  appended s s' = [] /\
  files s' = files s /\
  (forall stem, EvHttpGet (icon_url app stem) ∉ emitted s s') /\
  ((exists c, o = Exit c s') \/
   (o = Ret tt s' /\
    exists earlier,
      emitted s s' =
        earlier ++ [EvRun cmd;
                    EvPrint ("Error: Command '" +:+ cmd
                               +:+ "' returned non-zero exit status "
                               +:+ pretty status +:+ ".")])).
Proof.
  intros Hc Hrun Hst cmd o s'.
  set (hello := EvPrint
    "[FAST] Not connected to Steam. Will use SteamCMD to get the app info").
  assert (Ho : exists evs1, Forall (setup_event steamcmd_zip_url) evs1 /\
            ((exists c, o = Exit c (mkState (failed_icons s) (files s)
                                     (trace s ++ hello :: evs1))) \/
             o = Ret tt (mkState (failed_icons s) (files s)
                    (trace s ++ hello :: evs1 ++
                       [EvRun cmd;
                        EvPrint ("Error: Command '" +:+ cmd
                                   +:+ "' returned non-zero exit status "
                                   +:+ pretty status +:+ ".")])))).
  { subst o cmd. unfold fetch_icon_by_app_id. rewrite Hc. unfold fallback_path.
    unfold mbind, M_bind, bind, print, emit. simpl. fold hello.
    set (s0 := mkState (failed_icons s) (files s) (trace s ++ [hello])).
    pose proof (ensure_steamcmd_only w dir (os_path_join dir ["steamcmd.exe"]) s0) as He.
    destruct (ensure_steamcmd_outcome w dir (os_path_join dir ["steamcmd.exe"]) s0)
      as (s1 & [Hens|(c & Hens)]);
      rewrite Hens in He |- *; simpl in He |- *;
      destruct He as (evs1 & recs1 & Ht1 & Hf1 & He1 & Hr1%no_record_nil & Hw1);
      subst recs1; specialize (Hw1 eq_refl);
      destruct s1 as [f1 fl1 t1]; simpl in Ht1, Hf1, Hw1;
      rewrite app_nil_r in Hf1; subst f1 fl1 t1; exists evs1; (split; [assumption|]).
    - right. unfold fallback_try_block, run_checked. run_step. rewrite Hrun. simpl.
      apply Z.eqb_neq in Hst. rewrite Hst. simpl. now rewrite <- !app_assoc.
    - left. exists c. now rewrite <- app_assoc. }
  destruct Ho as (evs1 & He1 & [(c & Ho)|Ho]); subst s'; rewrite Ho;
    unfold emitted, appended; simpl; rewrite drop_app_length, drop_ge by lia;
    repeat split.
  - rewrite elem_of_cons. intros [Hin|Hin]; [discriminate|].
    eapply setup_not_read; eauto.
  - intros stem. rewrite elem_of_cons. intros [Hin|Hin]; [discriminate|].
    eapply setup_not_icon; eauto.
  - left. eauto.
  - rewrite elem_of_cons, elem_of_app. intros [Hin|[Hin|Hin]]; [discriminate| |].
    + eapply setup_not_read; eauto.
    + apply list_elem_of_In in Hin. simpl in Hin. intuition discriminate.
  - intros stem. rewrite elem_of_cons, elem_of_app.
    intros [Hin|[Hin|Hin]]; [discriminate| |].
    + eapply setup_not_icon; eauto.
    + apply list_elem_of_In in Hin. simpl in Hin. intuition discriminate.
  - right. split; [reflexivity|]. exists (hello :: evs1). reflexivity.
Qed.
End FailedTool.


(** C8, as stated, fails: SteamCMD exits with status 1 and leaves a usable
    line in the output file, yet the file is not read, nothing is
    downloaded and no record is appended. *)
Lemma failed_tool_output_is_not_read :
  let w := Sample.offline 1 [Sample.key_value_line "clienticon" "abc"]
             (Sample.cdn 200 []) in
  let s' := state_of (fetch_icon_by_app_id (H:=Sample.ntpath) w Sample.steam_dir
                        "730" EmptyString (initial ∅)) in
  subprocess_run w (app_info_command "C:\Steam\steamcmd.exe" "730") = Returns 1 /\
  readlines w output_file = Returns [Sample.key_value_line "clienticon" "abc"] /\
  (EvReadLines output_file ∉ trace s') /\
  (EvHttpGet (icon_url "730" "abc") ∉ trace s') /\
  failed_icons s' = [] /\
  files s' = ∅.
Proof.
  intros w s'. split; [reflexivity|]. split; [reflexivity|].
  split; [in_list|]. split; [in_list|]. split; reflexivity.
Qed.

Lemma failed_tool_ends_acquisition_witness :
  let w := Sample.offline 1 [Sample.key_value_line "clienticon" "abc"]
             (Sample.cdn 200 []) in
  let o := fetch_icon_by_app_id (H:=Sample.ntpath) w Sample.steam_dir
             "730" EmptyString (initial ∅) in
  connected w = false /\
  (EvReadLines output_file ∉ emitted (initial ∅) (state_of o)) /\
  appended (initial ∅) (state_of o) = [] /\
  files (state_of o) = ∅.
Proof.
  intros w o. split; [reflexivity|].
  destruct (failed_tool_ends_acquisition (H:=Sample.ntpath) w Sample.steam_dir "730"
              EmptyString (initial ∅) 1 eq_refl eq_refl ltac:(discriminate))
    as (Hread & Happ & Hfiles & _).
  repeat split; assumption.
Defined.

(* ===================================================================== *)
(** ** Repeating an acquisition *)
(* ===================================================================== *)





Lemma quiet_of_print app e : print_event e -> quiet_event app e.
Proof. destruct e; simpl; try tauto. intros _ stem. discriminate. Qed.


Section Idempotent.
Context `{Python}.
Variables (w : World) (dir app : string).





Lemma try_Exception_grows {A} PE PR wr (body : M A) (h : Exn -> M A) s :
  (forall e, only PE PR wr (h e)) ->
  grows PE PR wr (state_of (body s))
    (state_of (try_except body (except_Exception h) s)).
Proof.
  intros Hh. unfold try_except, except_Exception.
  destruct (body s) as [x s1|e s1|c s1]; simpl; try apply grows_refl.
  apply Hh.
Qed.







End Idempotent.



(* ===================================================================== *)
(** ** The report at the end of a run *)
(* ===================================================================== *)


Lemma for_each_print {A} (f : A -> string) l i s :
  for_each (fun _ x => print (f x)) i l s =
  Ret tt (mkState (failed_icons s) (files s)
            (trace s ++ map (fun x => EvPrint (f x)) l)).
Proof.
  revert i s. induction l as [|x l IH]; intros i s; simpl.
  - rewrite app_nil_r. now destruct s.
  - unfold mbind, M_bind, bind, print, emit. rewrite IH. simpl.
    now rewrite <- app_assoc.
Qed.

Section Report.
Context `{Python}.




End Report.


(* ===================================================================== *)
(** ** What is caught and what is not *)
(* ===================================================================== *)

Ltac case_step :=
  match goal with
  | |- context [match ?x with _ => _ end] =>
      lazymatch x with
      | context [match _ with _ => _ end] => fail
      | _ => destruct x eqn:?; simpl
      end
  end.

Section Caught.
Context `{Python}.

(** On the fast path every exception is caught: with a connected
    session [fetch_icon_by_app_id] returns normally, whatever the session
    and the network answer. *)
Lemma fast_path_returns w dir app nm s :
  connected w = true ->
  exists s', fetch_icon_by_app_id w dir app nm s = Ret tt s'.
Proof.
  intros Hc. unfold fetch_icon_by_app_id, fast_path, download_icon. rewrite Hc.
  run_step. repeat case_step; eauto.
Qed.

(** [download_and_extract] swallows every error of the download and of
    the archive: in a writeable directory it always returns normally. *)
Lemma download_and_extract_returns w url path s :
  os_path_isdir w path = true -> os_access_W_OK w path = true ->
  exists s', download_and_extract w url path s = Ret tt s'.
Proof.
  intros Hd Ha. unfold download_and_extract. rewrite Hd, Ha. simpl.
  unfold or_except, except_class. run_step.
  repeat case_step; repeat match goal with u : unit |- _ => destruct u end; eauto.
Qed.

(** So the handler of [fetch_icon_by_app_id] that exits is out of reach
    of a failed download or a bad archive: when the directory is writeable
    and the shell reports a status, fetching SteamCMD never ends the run. *)
Lemma ensure_steamcmd_returns w dir exe s :
  os_path_isdir w dir = true -> os_access_W_OK w dir = true ->
  (forall cmd, exists status, subprocess_run w cmd = Returns status) ->
  exists s', ensure_steamcmd w dir exe s = Ret tt s'.
Proof.
  intros Hd Ha Hsh. unfold ensure_steamcmd.
  destruct (negb (os_path_exists w exe)); [|unfold print, emit; eauto].
  unfold mbind, M_bind, bind, print at 1 2, emit at 1 2. simpl.
  unfold try_except at 1, mbind, M_bind, bind.
  match goal with |- context [download_and_extract w ?u dir ?s0] =>
    destruct (download_and_extract_returns w u dir s0 Hd Ha) as (s1 & ->) end.
  unfold run_checked.
  match goal with |- context [subprocess_run w ?c] =>
    destruct (Hsh c) as (status & Hrun) end.
  unfold except_class. run_step. rewrite Hrun. simpl.
  destruct (status =? 0); simpl; eauto.
Qed.

End Caught.

(* ===================================================================== *)
(** ** The batch loop *)
(* ===================================================================== *)

Lemma state_of_bind {A B} (m : M A) (k : A -> M B) s :
  state_of ((m ≫= k) s) =
  match m s with
  | Ret a s1 => state_of (k a s1)
  | Raise _ s1 | Exit _ s1 => s1
  end.
Proof. unfold mbind, M_bind, bind. now destruct (m s). Qed.

Lemma mode_is_token token (app_ids : list string) :
  existsb (String.eqb token) app_ids && (length app_ids =? 1)%nat = true ->
  app_ids = [token].
Proof.
  destruct app_ids as [|a [|b l]]; simpl; try (rewrite andb_false_r; discriminate).
  - discriminate.
  - rewrite orb_false_r, andb_true_r. now intros ->%String.eqb_eq.
Qed.

Section Batch.
Context `{Python}.

Lemma process_app_id_only h steam_path games i app_id :
  only any_event (fun r => appid r = app_id /\ app_id <> redistributables) true
    (process_app_id h steam_path games i app_id).
Proof.
  unfold process_app_id.
  destruct (String.eqb_spec app_id redistributables) as [->|Hne]; [footprint|].
  destruct (find _ games) as [game|] eqn:Hfind.
  - apply find_some in Hfind as [_ Heq%String.eqb_eq].
    eapply only_weaken; [| | |apply fetch_icon_by_app_id_only]; [easy| |easy].
    intros r [Hr _]. split; congruence.
  - apply only_bind; [footprint|intros _].
    eapply only_weaken; [| | |apply fetch_icon_by_app_id_only]; [easy| |easy].
    intros r [Hr _]. split; congruence.
Qed.

Lemma get_steam_games_only h steam_path b :
  only any_event no_record false (get_steam_games h steam_path b).
Proof.
  unfold get_steam_games. footprint.
  all: apply only_for_each; intros; footprint.
Qed.

Lemma report_only noIcon : only any_event no_record false (report noIcon).
Proof.
  unfold report. footprint.
  all: apply only_for_each; intros; footprint.
Qed.

Lemma print_eq line s :
  print line s = Ret tt (mkState (failed_icons s) (files s) (trace s ++ [EvPrint line])).
Proof. reflexivity. Qed.

Lemma emit_eq e s :
  emit e s = Ret tt (mkState (failed_icons s) (files s) (trace s ++ [e])).
Proof. reflexivity. Qed.

Lemma new_failed_icons_eq s :
  new_failed_icons s = Ret tt (mkState [] (files s) (trace s)).
Proof. reflexivity. Qed.

Lemma process_arguments_only h steam_path app_ids :
  app_ids <> ["all"] ->
  only any_event (fun r => appid r <> redistributables) true
    (process_arguments h steam_path app_ids).
Proof.
  intros Hmode. unfold process_arguments.
  destruct (existsb (String.eqb "list") app_ids && _) eqn:Hlist.
  { apply only_bind; [|intros; footprint].
    eapply only_weaken; [| | |apply get_steam_games_only]; [easy|intros ? []|easy]. }
  destruct (existsb (String.eqb "all") app_ids && _) eqn:Hall.
  { now apply mode_is_token in Hall. }
  apply only_bind.
  { eapply only_weaken; [| | |apply get_steam_games_only]; [easy|intros ? []|easy]. }
  intros games. apply only_bind; [|intros; footprint].
  apply only_for_each. intros i app_id _.
  eapply only_weaken; [| | |apply process_app_id_only]; [easy| |easy].
  intros r [-> Hne]. exact Hne.
Qed.

(** C6, the part that holds: unless the single argument is [all], no
    failure record of a run carries the identifier 228980. *)
Lemma explicit_run_skips_redistributables h argv fs :
  tail argv <> ["all"] ->
  Forall (fun r => appid r <> redistributables)
    (failed_icons (state_of (main h argv (initial fs)))).
Proof.
  intros Hmode. unfold main.
  destruct (length argv <? 2)%nat; [constructor|].
  destruct (steam_installation h) as [[|c path]|]; [constructor| |constructor].
  rewrite state_of_bind, print_eq. cbn beta iota.
  rewrite state_of_bind, emit_eq. cbn beta iota.
  rewrite state_of_bind.
  assert (Hlogin : exists line,
    (if anonymous_login_ok h
     then print "Logged in to Steam anonymously and successfully"
     else print "Could not log in to Steam anonymously. Will use SteamCMD to get the app info")
    = print line) by (destruct (anonymous_login_ok h); eauto).
  destruct Hlogin as (line & ->). rewrite print_eq. cbn beta iota.
  rewrite state_of_bind, new_failed_icons_eq. cbn beta iota.
  match goal with |- context [state_of (?m ?s0)] =>
    assert (Hg : only any_event (fun r => appid r <> redistributables) true m);
      [|apply (grows_appended _ _ _ _ _ (Hg s0))]
  end.
  apply only_bind; [now apply process_arguments_only|intros noIcon].
  apply only_bind; [|intros; footprint].
  eapply only_weaken; [| | |apply report_only]; [easy|intros ? []|easy].
Qed.

End Batch.

(* ===================================================================== *)
(** ** Scenarios *)
(* ===================================================================== *)

(** Listing two installed titles prints both and requests nothing. *)
Example scenario_list :
  let games := [mkGame "Team Fortress 2" "440"; mkGame "CS" "730"] in
  exists s',
    main (H:=Sample.ntpath)
      (Sample.host games (fun _ => Sample.offline 0 [] (Sample.cdn 200 [])))
      [Sample.script; "list"] (initial ∅) = Ret tt s' /\
    (EvPrint " - 440: Team Fortress 2" ∈ trace s') /\
    (EvPrint " - 730: CS" ∈ trace s') /\
    files s' = ∅ /\
    List.filter (fun e => match e with EvHttpGet _ | EvRun _ | EvQuery _ => true | _ => false end)
      (trace s') = [].
Proof.
  eexists. split; [vm_compute; reflexivity|]. simpl.
  split; [in_list|]. split; [in_list|]. split; reflexivity.
Qed.

(** A connected session that knows the icon of 730: one request, one
    file. *)
Example scenario_fast_path :
  let w := Sample.online (Returns (Sample.product 730 {[ "clienticon" := "icon_abc" ]}))
             (Sample.cdn 200 [Byte.x41]) in
  exists s',
    main (H:=Sample.ntpath) (Sample.host [] (fun _ => w))
      [Sample.script; "730"] (initial ∅) = Ret tt s' /\
    (EvHttpGet "https://cdn.cloudflare.steamstatic.com/steamcommunity/public/images/apps/730/icon_abc.ico"
       ∈ trace s') /\
    files s' = {[ "C:\Steam\steam\games\icon_abc.ico" := [Byte.x41] ]} /\
    failed_icons s' = [].
Proof.
  eexists. split; [vm_compute; reflexivity|]. simpl.
  split; [in_list|]. split; reflexivity.
Qed.

(** The redistributables are skipped when they are named on the command
    line. *)
Example scenario_skip :
  let w := Sample.offline 0 [] (Sample.cdn 200 []) in
  exists s',
    main (H:=Sample.ntpath) (Sample.host [] (fun _ => w))
      [Sample.script; "228980"; "730"] (initial ∅) = Ret tt s' /\
    failed_icons s' = [mkFailure "730" EmptyString icon_not_found] /\
    (EvRun (app_info_command "C:\Steam\steamcmd.exe" "228980") ∉ trace s').
Proof.
  eexists. split; [vm_compute; reflexivity|]. simpl.
  split; [reflexivity|in_list].
Qed.

(* ===================================================================== *)
(** ** Where the paths reach the download step *)
(* ===================================================================== *)

Section CallSites.
Context `{Python}.

(** The fast path hands the client-icon field of the answer to
    [download_icon], with the address built from it. *)
Lemma fast_path_calls_download w dir app nm s stem :
  connected w = true ->
  client_icon_of w app = Some stem ->
  exists n,
    fetch_icon_by_app_id w dir app nm s =
    try_except
      (download_icon w app stem (icon_url app stem) nm dir)
      (except_Exception (fun err =>
         print ("[FAST] An error occurred: " +:+ exn_str err)))
      (mkState (failed_icons s) (files s)
         (trace s ++
            [EvQuery n;
             EvPrint ("[FAST] Client Icon URL for " +:+ nm +:+ " - " +:+ app
                        +:+ ": " +:+ icon_url app stem)])).
Proof.
  unfold fetch_icon_by_app_id, fast_path, client_icon_of. intros -> Hicon.
  destruct (int app) as [e|n]; [discriminate|]. exists n.
  destruct (get_product_info w n) as [e|[d|]] eqn:Hinfo; try discriminate.
  run_step. rewrite Hinfo. simpl.
  destruct (decide (d = ∅)) as [->|_].
  { rewrite lookup_empty in Hicon. discriminate. }
  destruct (d !! "apps") as [apps|]; [|discriminate]. simpl in *.
  destruct (apps !! n) as [entry|]; [|discriminate]. simpl in *.
  destruct (entry !! "common") as [common|]; [|discriminate]. simpl in *.
  rewrite Hicon. cbn [failed_icons files trace]. rewrite <- app_assoc. reflexivity.
Qed.

End CallSites.

(* ===================================================================== *)
(** ** How statements end the process *)
(* ===================================================================== *)

Section ExitsWith.
Variable P : Z -> Prop.

Lemma exits_ret {A} (a : A) : exits_with P (mret a).
Proof. intros s c s'. discriminate. Qed.

Lemma exits_raise {A} e : exits_with P (@raise A e).
Proof. intros s c s'. discriminate. Qed.

Lemma exits_exit {A} c : P c -> exits_with P (@exit A c).
Proof. intros Hc s c' s' [= <- _]. exact Hc. Qed.

Lemma exits_call {A} (r : Result A) : exits_with P (call r).
Proof. destruct r; [apply exits_raise | apply exits_ret]. Qed.

Lemma exits_emit e : exits_with P (emit e).
Proof. intros s c s'. discriminate. Qed.

Lemma exits_print line : exits_with P (print line).
Proof. apply exits_emit. Qed.

Lemma exits_append r : exits_with P (append_failed r).
Proof. intros s c s'. discriminate. Qed.

Lemma exits_write path body : exits_with P (write_file path body).
Proof. intros s c s'. discriminate. Qed.

Lemma exits_get_failed : exits_with P get_failed_icons.
Proof. intros s c s'. discriminate. Qed.

Lemma exits_new_failed : exits_with P new_failed_icons.
Proof. intros s c s'. discriminate. Qed.

Lemma exits_bind {A B} (m : M A) (k : A -> M B) :
  exits_with P m -> (forall a, exits_with P (k a)) -> exits_with P (m ≫= k).
Proof.
  intros Hm Hk s c s'. unfold mbind, M_bind, bind.
  destruct (m s) as [a s1|e s1|c1 s1] eqn:Hms; try discriminate.
  - apply Hk.
  - intros [= <- <-]. eapply Hm; eauto.
Qed.

Lemma exits_try {A} (body : M A) handler :
  exits_with P body ->
  (forall e h, handler e = Some h -> exits_with P h) ->
  exits_with P (try_except body handler).
Proof.
  intros Hm Hh s c s'. unfold try_except.
  destruct (body s) as [a s1|e s1|c1 s1] eqn:Hms; try discriminate.
  - destruct (handler e) as [h|] eqn:He; [|discriminate]. eapply Hh; eauto.
  - intros [= <- <-]. eapply Hm; eauto.
Qed.

Lemma exits_Exception {A} (h : Exn -> M A) :
  (forall e, exits_with P (h e)) ->
  forall e h', except_Exception h e = Some h' -> exits_with P h'.
Proof. intros Hh e h' [= <-]. apply Hh. Qed.

Lemma exits_class {A} cls (h : Exn -> M A) :
  (forall e, exits_with P (h e)) ->
  forall e h', except_class cls h e = Some h' -> exits_with P h'.
Proof.
  intros Hh e h'. unfold except_class.
  destruct cls, (exn_class e); intros [= <-]; apply Hh.
Qed.

Lemma exits_or {A} (h1 h2 : Exn -> option (M A)) :
  (forall e h, h1 e = Some h -> exits_with P h) ->
  (forall e h, h2 e = Some h -> exits_with P h) ->
  forall e h, or_except h1 h2 e = Some h -> exits_with P h.
Proof.
  intros H1 H2 e h. unfold or_except.
  destruct (h1 e) eqn:He1; [intros [= <-]; eauto | eauto].
Qed.

Lemma exits_for_each {A} (body : nat -> A -> M unit) l :
  (forall i x, exits_with P (body i x)) ->
  forall i, exits_with P (for_each body i l).
Proof.
  induction l as [|x l IH]; intros Hb i; simpl.
  - apply exits_ret.
  - apply exits_bind; [apply Hb|]. intros _. now apply IH.
Qed.

End ExitsWith.

Lemma exits_weaken (P Q : Z -> Prop) {A} (m : M A) :
  (forall c, P c -> Q c) -> exits_with P m -> exits_with Q m.
Proof. intros HPQ Hm s c s' He. eauto. Qed.

Ltac exits :=
  repeat first
    [ apply exits_ret | apply exits_raise | apply exits_call
    | apply exits_print | apply exits_emit | apply exits_append | apply exits_write
    | apply exits_get_failed | apply exits_new_failed
    | apply exits_exit; reflexivity
    | apply exits_bind; [|intros ?]
    | apply exits_try
    | apply exits_or
    | apply exits_class; intros ?
    | apply exits_Exception; intros ?
    | apply exits_for_each; intros ? ?
    | match goal with
      | |- exits_with _ (if ?b then _ else _) => destruct b
      | |- exits_with _ (match ?x with _ => _ end) => destruct x
      end ].

Section ScriptExits.
Context `{Python}.
Variable P : Z -> Prop.

Lemma download_and_extract_exits w url path :
  exits_with P (download_and_extract w url path).
Proof. unfold download_and_extract. exits. Qed.

Lemma run_checked_exits w cmd : exits_with P (run_checked w cmd).
Proof. unfold run_checked. exits. Qed.

Lemma download_icon_exits w app fn url nm dir :
  exits_with P (download_icon w app fn url nm dir).
Proof. unfold download_icon. exits. Qed.

Lemma scan_lines_exits w dir app nm lines :
  exits_with P (scan_lines w dir app nm lines).
Proof.
  induction lines as [|line rest IH]; simpl; [apply exits_ret|].
  destruct (PyStr.contains _ line); [|exact IH].
  destruct (_ <? _)%nat; [|exact IH].
  apply exits_bind; [unfold index; exits|intros stem].
  apply exits_bind; [exits|intros _].
  apply exits_bind; [apply download_icon_exits|intros _]. exits.
Qed.

Lemma fast_path_exits w dir app nm : exits_with P (fast_path w dir app nm).
Proof.
  unfold fast_path. apply exits_try; [|exits].
  do 3 (apply exits_bind; [exits|intros ?]).
  destruct (truthy _); [|exits].
  apply exits_bind; [exits|intros ?].
  do 2 (apply exits_bind; [unfold subscript; exits|intros ?]).
  destruct (_ ≫= _); [|exits].
  apply exits_bind; [exits|intros _]. apply download_icon_exits.
Qed.

Lemma fallback_try_block_exits w dir cmd app nm :
  exits_with P (fallback_try_block w dir cmd app nm).
Proof.
  unfold fallback_try_block.
  apply exits_bind; [apply run_checked_exits|intros _].
  do 3 (apply exits_bind; [exits|intros ?]).
  apply exits_bind; [apply scan_lines_exits|intros found]. exits.
Qed.

End ScriptExits.

(* ===================================================================== *)
(** ** When an acquisition ends the run *)
(* ===================================================================== *)

Section EndsTheRun.
Context `{Python}.

Lemma ensure_steamcmd_exits_1 w dir exe :
  exits_with (eq 1) (ensure_steamcmd w dir exe).
Proof.
  unfold ensure_steamcmd. destruct (negb _); [|exits].
  do 2 (apply exits_bind; [exits|intros _]).
  apply exits_try; [|exits].
  apply exits_bind; [apply download_and_extract_exits|intros _].
  apply exits_bind; [exits|intros _].
  apply exits_try; [|exits].
  apply exits_bind; [exits|intros _]. apply run_checked_exits.
Qed.

Lemma ensure_steamcmd_exit_cause w dir s c s' :
  ensure_steamcmd w dir (os_path_join dir ["steamcmd.exe"]) s = Exit c s' ->
  os_path_exists w (os_path_join dir ["steamcmd.exe"]) = false /\
  steamcmd_unobtainable w dir.
Proof.
  unfold ensure_steamcmd, steamcmd_unobtainable.
  destruct (os_path_exists w _); simpl; [discriminate|]. intros Hex.
  split; [reflexivity|].
  destruct (os_path_isdir w dir) eqn:Hd; [|now left].
  destruct (os_access_W_OK w dir) eqn:Ha; [|now (right; left)].
  right. right. revert Hex.
  unfold mbind, M_bind, bind, print at 1 2, emit at 1 2. simpl.
  unfold try_except at 1, mbind, M_bind, bind.
  match goal with |- context [download_and_extract w ?u dir ?s0] =>
    destruct (download_and_extract_returns w u dir s0 Hd Ha) as (s1 & ->) end.
  unfold run_checked. fold (quit_command (os_path_join dir ["steamcmd.exe"])).
  unfold except_class. run_step.
  destruct (subprocess_run w _) as [e|status]; simpl.
  - destruct (exn_class e) eqn:Hcls; simpl; try discriminate;
      intros _; exists e; (split; [reflexivity|congruence]).
  - destruct (status =? 0); simpl; discriminate.
Qed.

Lemma fetch_exit_status w dir app nm :
  exits_with (eq 1) (fetch_icon_by_app_id w dir app nm).
Proof.
  unfold fetch_icon_by_app_id. destruct (connected w); [apply fast_path_exits|].
  apply exits_bind; [exits|intros _]. unfold fallback_path.
  apply exits_bind; [apply ensure_steamcmd_exits_1|intros _].
  apply exits_try; [apply fallback_try_block_exits|exits].
Qed.

Lemma fetch_exit_cause w dir app nm s c s' :
  fetch_icon_by_app_id w dir app nm s = Exit c s' ->
  connected w = false /\
  os_path_exists w (os_path_join dir ["steamcmd.exe"]) = false /\
  steamcmd_unobtainable w dir.
Proof.
  unfold fetch_icon_by_app_id. destruct (connected w).
  { intros Hex. now destruct (fast_path_exits (fun _ => False) w dir app nm _ _ _ Hex). }
  unfold mbind at 1, M_bind at 1, bind at 1. rewrite print_eq.
  unfold fallback_path, mbind, M_bind, bind.
  destruct (ensure_steamcmd w dir _ _) as [[] s1|e s1|c1 s1] eqn:Hens.
  - intros Hex. exfalso. revert Hex.
    apply (exits_try (fun _ => False)); [apply fallback_try_block_exits|exits].
  - discriminate.
  - intros _. split; [reflexivity|]. eapply ensure_steamcmd_exit_cause; eauto.
Qed.

(** X1. [fetch_icon_by_app_id] can end the process only with status 1,
    only on the fallback path, and only while fetching a missing
    SteamCMD: the session is not connected, [steamcmd.exe] is absent, and
    the installation directory cannot be written or the shell call of the
    self-update raises something else than [CalledProcessError].  No
    failure of a lookup or of a download ends the run. *)
Theorem fetch_ends_the_run_only_for_steamcmd w dir app nm s c s' :
  fetch_icon_by_app_id w dir app nm s = Exit c s' ->
  c = 1 /\
  connected w = false /\
  os_path_exists w (os_path_join dir ["steamcmd.exe"]) = false /\
  steamcmd_unobtainable w dir.
Proof.
  intros Hex. split.
  - symmetry. exact (fetch_exit_status w dir app nm s c s' Hex).
  - exact (fetch_exit_cause w dir app nm s c s' Hex).
Qed.

(** X2. When the session is not connected, [steamcmd.exe] is absent and
    the installation directory is not a writeable directory,
    [fetch_icon_by_app_id] ends the process with status 1 after four
    printed lines and the exception's text: nothing is requested from
    the network, no command is run, and the failure list and the files
    are as before. *)
Theorem unwritable_directory_ends_the_run w dir app nm s :
  connected w = false ->
  os_path_exists w (os_path_join dir ["steamcmd.exe"]) = false ->
  os_path_isdir w dir = false \/ os_access_W_OK w dir = false ->
  fetch_icon_by_app_id w dir app nm s =
  Exit 1
    (mkState (failed_icons s) (files s)
       (trace s ++
          [EvPrint "[FAST] Not connected to Steam. Will use SteamCMD to get the app info";
           EvPrint ("SteamCMD not found in the following path: " +:+ dir);
           EvPrint "Downloading SteamCMD...";
           EvPrint ("An exception occurred:  "
                      +:+ "The path is either not a directory or is not writeable: "
                      +:+ dir);
           EvPrint "Failed to download SteamCMD. Exiting..."])).
Proof.
  intros Hc Hex Hw. unfold fetch_icon_by_app_id, fallback_path, ensure_steamcmd.
  rewrite Hc, Hex. unfold download_and_extract.
  assert (Hcond : negb (os_path_isdir w dir) || negb (os_access_W_OK w dir) = true).
  { destruct Hw as [-> | ->]; [reflexivity|apply orb_true_r]. }
  rewrite Hcond. run_step. unfold emit, exit. simpl.
  now rewrite <- !app_assoc.
Qed.

End EndsTheRun.

Lemma fetch_ends_the_run_only_for_steamcmd_witness :
  exists s',
    fetch_icon_by_app_id (H:=Sample.ntpath) MoreSamples.read_only Sample.steam_dir
      "730" "CS" (initial ∅) = Exit 1 s' /\
    connected MoreSamples.read_only = false /\
    steamcmd_unobtainable (H:=Sample.ntpath) MoreSamples.read_only Sample.steam_dir.
Proof.
  assert (Hrun : fetch_icon_by_app_id (H:=Sample.ntpath) MoreSamples.read_only
                   Sample.steam_dir "730" "CS" (initial ∅)
                 = Exit 1 (state_of (fetch_icon_by_app_id (H:=Sample.ntpath)
                                       MoreSamples.read_only Sample.steam_dir
                                       "730" "CS" (initial ∅))))
    by (vm_compute; reflexivity).
  destruct (fetch_ends_the_run_only_for_steamcmd (H:=Sample.ntpath) _ _ _ _ _ _ _ Hrun)
    as (_ & Hc & _ & Hu).
  eexists. split; [exact Hrun|]. split; assumption.
Defined.

Lemma unwritable_directory_ends_the_run_witness :
  exists s',
    fetch_icon_by_app_id (H:=Sample.ntpath) MoreSamples.read_only Sample.steam_dir
      "730" "CS" (initial ∅) = Exit 1 s' /\
    failed_icons s' = [] /\ files s' = ∅.
Proof.
  eexists. split.
  { apply (unwritable_directory_ends_the_run (H:=Sample.ntpath) MoreSamples.read_only
             Sample.steam_dir "730" "CS" (initial ∅)); [reflexivity|reflexivity|].
    right. reflexivity. }
  split; reflexivity.
Defined.

(* ===================================================================== *)
(** ** The course of one acquisition *)
(* ===================================================================== *)

Ltac silent_grow evs :=
  exists evs, []; simpl; rewrite <- ?app_assoc, ?app_nil_r;
  repeat split; repeat constructor.

Section Course.
Context `{Python}.
Variables (w : World) (dir app nm : string).

(** The fast path: a query and printed lines, then at most one call of
    [download_icon], then at most a printed error. *)
Lemma fast_path_course s :
  exists s2 sb,
    grows query_or_print no_record false s s2 /\
    (sb = s2 \/
     exists stem,
       sb = state_of (download_icon w app stem (icon_url app stem) nm dir s2)) /\
    grows print_event no_record false sb (state_of (fast_path w dir app nm s)).
Proof.
  unfold fast_path.
  match goal with |- context [try_except ?b (except_Exception ?h) s] =>
    pose proof (try_Exception_grows print_event no_record false b h s) as Hh;
    assert (Hb : exists s2,
              grows query_or_print no_record false s s2 /\
              (state_of (b s) = s2 \/
               exists stem,
                 state_of (b s) =
                 state_of (download_icon w app stem (icon_url app stem) nm dir s2)))
  end.
  { clear Hh. run_step.
    destruct (int app) as [e|n]; simpl.
    { eexists. split; [apply grows_refl|now left]. }
    destruct (get_product_info w n) as [e|info]; simpl.
    { eexists. split; [|now left]. silent_grow [EvQuery n]. }
    destruct (truthy info); simpl.
    2:{ eexists. split; [|now left].
        silent_grow [EvQuery n;
                     EvPrint ("[FAST] Unable to get product info for app ID:  " +:+ app)]. }
    destruct (default ∅ info !! "apps") as [apps|]; simpl.
    2:{ eexists. split; [|now left]. silent_grow [EvQuery n]. }
    destruct (apps !! n) as [entry|]; simpl.
    2:{ eexists. split; [|now left]. silent_grow [EvQuery n]. }
    destruct (option_bind _ _ _ _) as [stem|]; simpl.
    2:{ eexists. split; [|now left].
        silent_grow [EvQuery n;
                     EvPrint "[FAST] Unable to find 'clienticon' in the app info"]. }
    eexists. split; [|right; exists stem; reflexivity].
    silent_grow [EvQuery n;
                 EvPrint ("[FAST] Client Icon URL for " +:+ nm +:+ " - " +:+ app
                            +:+ ": " +:+ icon_url app stem)]. }
  destruct Hb as (s2 & Hg & Hb). eexists s2, _. split; [exact Hg|].
  split; [exact Hb|]. apply Hh. intros e. apply only_print. exact I.
Qed.








End Course.

Section FastPathEffects.
Context `{Python}.

Lemma download_icon_fast_events w app stem nm dir :
  only (fast_event app) any_record true
    (download_icon w app stem (icon_url app stem) nm dir).
Proof.
  unfold download_icon.
  apply only_bind; [apply only_emit; simpl; eauto|intros _].
  apply only_bind; [apply only_call|intros resp].
  destruct (status_code resp =? 200).
  - apply only_bind; [apply only_emit; exact I|intros _].
    apply only_bind; [apply only_write; [exact I|reflexivity]|intros _].
    apply only_print. exact I.
  - apply only_bind; [apply only_print; exact I|intros _].
    apply only_append. exact I.
Qed.

(** X4. With a connected session [fetch_icon_by_app_id] always returns
    normally, and all it does is query the session, print, request an
    icon of the identifier at hand and store it: it never runs SteamCMD,
    never reads the output file and never downloads or unpacks the
    utility. *)
Theorem connected_session_never_falls_back w dir app nm s :
  connected w = true ->
  exists s',
    fetch_icon_by_app_id w dir app nm s = Ret tt s' /\
    Forall (fast_event app) (emitted s s').
Proof.
  intros Hc. destruct (fast_path_returns w dir app nm s Hc) as (s' & Hrun).
  exists s'. split; [exact Hrun|].
  assert (Hs : s' = state_of (fast_path w dir app nm s)).
  { unfold fetch_icon_by_app_id in Hrun. rewrite Hc in Hrun. now rewrite Hrun. }
  destruct (fast_path_course w dir app nm s) as (s2 & sb & Hg & Hb & Hp).
  rewrite <- Hs in Hp.
  apply (grows_emitted (fast_event app) any_record true).
  eapply grows_trans; [|eapply grows_trans].
  - eapply grows_weaken; [| | |exact Hg]; [|intros ? []|easy].
    intros [] He; simpl in *; tauto.
  - destruct Hb as [->|(stem & ->)]; [apply grows_refl|].
    apply download_icon_fast_events.
  - eapply grows_weaken; [| | |exact Hp]; [|intros ? []|easy].
    intros [] He; simpl in *; tauto.
Qed.

End FastPathEffects.

Lemma connected_session_never_falls_back_witness :
  let w := Sample.online (Returns (Sample.product 730 {[ "clienticon" := "icon_abc" ]}))
             (fun _ => Raises Sample.refused) in
  exists s',
    fetch_icon_by_app_id (H:=Sample.ntpath) w Sample.steam_dir "730" "CS" (initial ∅)
      = Ret tt s' /\
    Forall (fast_event "730") (emitted (initial ∅) s').
Proof.
  intros w.
  apply (connected_session_never_falls_back (H:=Sample.ntpath) w Sample.steam_dir
           "730" "CS" (initial ∅)).
  reflexivity.
Defined.

(* ===================================================================== *)
(** ** What the parser of quoted lines reads *)
(* ===================================================================== *)

Lemma string_app_cons c (a b : string) : String c a +:+ b = String c (a +:+ b).
Proof. reflexivity. Qed.

Lemma string_app_nil (b : string) : EmptyString +:+ b = b.
Proof. reflexivity. Qed.

Lemma string_app_assoc (a b c : string) : (a +:+ b) +:+ c = a +:+ b +:+ c.
Proof.
  induction a as [|x a IH]; [reflexivity|].
  rewrite !string_app_cons. now rewrite IH.
Qed.

Lemma quoted_app k x :
  PyStr.quoted k +:+ x = String PyStr.dquote (k +:+ String PyStr.dquote x).
Proof.
  unfold PyStr.quoted. rewrite string_app_cons, string_app_assoc. reflexivity.
Qed.

Lemma lstrip_app_nonspace a q b :
  PyStr.is_space q = false ->
  PyStr.lstrip (a +:+ String q b) = PyStr.lstrip a +:+ String q b.
Proof.
  intros Hq. induction a as [|c a IH].
  - rewrite string_app_nil. cbn [PyStr.lstrip]. now rewrite Hq.
  - rewrite string_app_cons. cbn [PyStr.lstrip].
    destruct (PyStr.is_space c); [exact IH|reflexivity].
Qed.

Lemma rstrip_nonspace q b :
  PyStr.is_space q = false ->
  PyStr.rstrip (String q b) = String q (PyStr.rstrip b).
Proof. intros Hq. cbn [PyStr.rstrip]. rewrite Hq. now destruct (PyStr.rstrip b). Qed.

Lemma rstrip_app_nonspace a q b :
  PyStr.is_space q = false ->
  PyStr.rstrip (a +:+ String q b) = a +:+ String q (PyStr.rstrip b).
Proof.
  intros Hq. induction a as [|c a IH].
  - rewrite !string_app_nil. now apply rstrip_nonspace.
  - rewrite !string_app_cons. cbn [PyStr.rstrip]. rewrite IH.
    destruct a; reflexivity.
Qed.

Lemma split_app_sep sep a b :
  PyStr.count sep a = 0%nat ->
  PyStr.split sep (a +:+ String sep b) = a :: PyStr.split sep b.
Proof.
  induction a as [|c a IH].
  - intros _. rewrite string_app_nil. cbn [PyStr.split]. now rewrite Ascii.eqb_refl.
  - rewrite string_app_cons. cbn [PyStr.split PyStr.count].
    destruct (Ascii.eqb c sep); [discriminate|]. intros Hc. now rewrite IH.
Qed.

Lemma startswith_app p b : PyStr.startswith p (p +:+ b) = true.
Proof.
  induction p as [|c p IH]; [reflexivity|].
  rewrite string_app_cons. cbn [PyStr.startswith]. now rewrite Ascii.eqb_refl.
Qed.

Lemma contains_startswith p s :
  PyStr.startswith p s = true -> PyStr.contains p s = true.
Proof. intros Hp. destruct s; cbn [PyStr.contains]; now rewrite Hp. Qed.

Lemma contains_here p b : PyStr.contains p (p +:+ b) = true.
Proof. apply contains_startswith, startswith_app. Qed.

Lemma contains_app_r p a s :
  PyStr.contains p s = true -> PyStr.contains p (a +:+ s) = true.
Proof.
  intros Hs. induction a as [|c a IH]; [exact Hs|].
  rewrite string_app_cons. cbn [PyStr.contains]. rewrite IH. apply orb_true_r.
Qed.

Lemma startswith_app_l p a s :
  PyStr.startswith p a = true -> PyStr.startswith p (a +:+ s) = true.
Proof.
  revert a. induction p as [|y p IH]; intros [|z a]; try easy.
  rewrite string_app_cons. cbn [PyStr.startswith].
  intros [-> Hp]%andb_prop. cbn [andb]. now apply IH.
Qed.

Lemma contains_app_l p a s :
  PyStr.contains p a = true -> PyStr.contains p (a +:+ s) = true.
Proof.
  induction a as [|c a IH].
  - cbn [PyStr.contains]. rewrite orb_false_r. intros Hp.
    apply contains_startswith. now apply (startswith_app_l p EmptyString).
  - cbn [PyStr.contains]. intros [Hp|Ha]%orb_prop.
    + apply contains_startswith. now apply startswith_app_l.
    + rewrite string_app_cons. cbn [PyStr.contains]. rewrite (IH Ha).
      apply orb_true_r.
Qed.

Lemma quoted_value_index pre key mid value post :
  PyStr.count PyStr.dquote pre = 0%nat ->
  PyStr.count PyStr.dquote key = 0%nat ->
  PyStr.count PyStr.dquote mid = 0%nat ->
  PyStr.count PyStr.dquote value = 0%nat ->
  PyStr.split PyStr.dquote
    (PyStr.strip (pre +:+ PyStr.quoted key +:+ mid +:+ PyStr.quoted value +:+ post))
    !! 3%nat = Some value.
Proof.
  intros Hpre Hkey Hmid Hval.
  rewrite !quoted_app. unfold PyStr.strip.
  rewrite lstrip_app_nonspace by reflexivity.
  rewrite !rstrip_app_nonspace by reflexivity.
  rewrite !split_app_sep; try assumption; [reflexivity|].
  now rewrite count_lstrip.
Qed.

Lemma quoted_key_found pre key rest :
  PyStr.contains (PyStr.quoted key) (pre +:+ PyStr.quoted key +:+ rest) = true.
Proof. apply contains_app_r, contains_here. Qed.

(** X5. On a line that holds a quoted key and then a quoted value,
    with no other double quote before the value ends, the parser of both
    readers (strip the line, split it at the double quotes, take the part
    at index 3) reads the value, whatever surrounds the two tokens and
    whatever follows the value. *)
Theorem parser_reads_quoted_value pre key mid value post :
  PyStr.count PyStr.dquote pre = 0%nat ->
  PyStr.count PyStr.dquote key = 0%nat ->
  PyStr.count PyStr.dquote mid = 0%nat ->
  PyStr.count PyStr.dquote value = 0%nat ->
  let line := pre +:+ PyStr.quoted key +:+ mid +:+ PyStr.quoted value +:+ post in
  PyStr.split PyStr.dquote (PyStr.strip line) !! 3%nat = Some value /\
  PyStr.contains (PyStr.quoted key) line = true.
Proof.
  intros Hpre Hkey Hmid Hval line. subst line. split.
  - now apply quoted_value_index.
  - apply quoted_key_found.
Qed.

Lemma parser_reads_quoted_value_witness :
  PyStr.split PyStr.dquote
    (PyStr.strip (Sample.key_value_line "clienticon" "abc123")) !! 3%nat
  = Some "abc123" /\
  PyStr.contains clienticon_key (Sample.key_value_line "clienticon" "abc123") = true.
Proof.
  exact (parser_reads_quoted_value
           (String "009" (String "009" EmptyString)) "clienticon"
           (String "009" (String "009" EmptyString)) "abc123"
           (String "010" EmptyString) eq_refl eq_refl eq_refl eq_refl).
Defined.


Section FallbackDownload.
Context `{Python}.


End FallbackDownload.


(* ===================================================================== *)
(** ** Whole runs *)
(* ===================================================================== *)

Lemma bind_Exit_inv {A B} (m : M A) (k : A -> M B) s c s' :
  (m ≫= k) s = Exit c s' ->
  m s = Exit c s' \/ exists a s1, m s = Ret a s1 /\ k a s1 = Exit c s'.
Proof.
  unfold mbind, M_bind, bind. destruct (m s) as [a s1|e s1|c1 s1]; try discriminate.
  - eauto.
  - intros [= <- <-]. now left.
Qed.

Lemma for_each_Exit_inv {A} (body : nat -> A -> M unit) l i s c s' :
  for_each body i l s = Exit c s' ->
  exists j x s0, In x l /\ body j x s0 = Exit c s'.
Proof.
  revert i s. induction l as [|x l IH]; intros i s; simpl; [discriminate|].
  intros [Hx|(a & s1 & _ & Hrest)]%bind_Exit_inv.
  - exists i, x, s. split; [now left|exact Hx].
  - destruct (IH _ _ Hrest) as (j & y & s0 & Hy & Hb).
    exists j, y, s0. split; [now right|exact Hb].
Qed.

Section Runs.
Context `{Python}.

Lemma get_steam_games_returns h steam_path b s :
  exists evs,
    Forall print_event evs /\
    (b = true -> forall game, In game (games_of h) ->
       In (EvPrint (" - " +:+ game_appid game +:+ ": " +:+ game_name game)) evs) /\
    get_steam_games h steam_path b s =
    Ret (games_of h) (mkState (failed_icons s) (files s) (trace s ++ evs)).
Proof.
  unfold get_steam_games, games_of.
  destruct (library_folders h) as [|folder folders].
  { exists [EvPrint "No Steam library folders found."]. split; [repeat constructor|].
    split; [intros _ game []|reflexivity]. }
  set (all_games := concat (map (acf_games h) (folder :: folders))).
  unfold mbind, M_bind, bind.
  destruct all_games as [|g gs] eqn:Hg.
  { exists [EvPrint "No Steam games found in your local libraries."].
    split; [repeat constructor|]. split; [intros _ game []|reflexivity]. }
  destruct b.
  - rewrite print_eq.
    rewrite (for_each_print (fun game =>
               " - " +:+ game_appid game +:+ ": " +:+ game_name game)).
    exists (EvPrint "List of Steam games found in your local libraries:"
              :: map (fun game => EvPrint (" - " +:+ game_appid game +:+ ": "
                                             +:+ game_name game)) (g :: gs)).
    split; [|split].
    + constructor; [exact I|]. apply Forall_map, Forall_forall. intros; exact I.
    + intros _ game Hgame. right. apply in_map_iff. eauto.
    + cbn [failed_icons files trace]. unfold mret, M_ret, ret.
      now rewrite <- app_assoc.
  - exists []. split; [constructor|]. split; [discriminate|].
    unfold mret, M_ret, ret. rewrite app_nil_r. now destruct s.
Qed.

Lemma get_steam_games_exits P h steam_path b :
  exits_with P (get_steam_games h steam_path b).
Proof.
  intros s c s'. destruct (get_steam_games_returns h steam_path b s) as (evs & _ & _ & ->).
  discriminate.
Qed.

Lemma report_exits P noIcon : exits_with P (report noIcon).
Proof. unfold report. exits. Qed.



Lemma process_app_id_records h steam_path games i app_id :
  only any_event
    (fun r => appid r = app_id /\ app_id <> redistributables /\
              name r = display_name games app_id) true
    (process_app_id h steam_path games i app_id).
Proof.
  unfold process_app_id, display_name.
  destruct (String.eqb_spec app_id redistributables) as [->|Hne]; [footprint|].
  destruct (find _ games) as [game|] eqn:Hfind.
  - apply find_some in Hfind as [_ Heq%String.eqb_eq].
    eapply only_weaken; [| | |apply fetch_icon_by_app_id_only]; [easy| |easy].
    intros r [Hr Hn]. repeat split; congruence.
  - apply only_bind; [footprint|intros _].
    eapply only_weaken; [| | |apply fetch_icon_by_app_id_only]; [easy| |easy].
    intros r [Hr Hn]. repeat split; congruence.
Qed.

Lemma main_prefix h argv fs c path :
  (2 <= length argv)%nat ->
  steam_installation h = Some (String c path) ->
  exists evs,
    Forall session_or_print evs /\
    main h argv (initial fs) =
    (noIcon ← process_arguments h (String c path) (tail argv);
     report noIcon;; emit EvLogout) (mkState [] fs evs).
Proof.
  intros Hlen Hsteam. unfold main.
  destruct (Nat.ltb_spec (length argv) 2) as [Hlt|_]; [lia|]. rewrite Hsteam.
  assert (Hlogin : exists line,
    (if anonymous_login_ok h
     then print "Logged in to Steam anonymously and successfully"
     else print "Could not log in to Steam anonymously. Will use SteamCMD to get the app info")
    = print line) by (destruct (anonymous_login_ok h); eauto).
  destruct Hlogin as (line & ->).
  unfold mbind at 1 2 3 4, M_bind at 1 2 3 4, bind at 1 2 3 4.
  rewrite print_eq, emit_eq, print_eq, new_failed_icons_eq.
  cbn [failed_icons files trace initial app].
  eexists. split; [|reflexivity]. repeat constructor.
Qed.

(** X8. Given identifiers on the command line, every failure record of
    the run carries one of those identifiers, never 228980, and with it
    the name of the first installed title that has this identifier, or
    the empty name when none has: the retry command never names anything
    that was not asked for. *)
Theorem records_come_from_the_arguments h argv fs :
  tail argv <> ["all"] ->
  Forall (fun r =>
            In (appid r) (tail argv) /\ appid r <> redistributables /\
            name r = display_name (games_of h) (appid r))
    (failed_icons (state_of (main h argv (initial fs)))).
Proof.
  intros Hmode.
  destruct (Nat.ltb_spec (length argv) 2) as [Hlt|Hlen].
  { unfold main. apply Nat.ltb_lt in Hlt. rewrite Hlt. constructor. }
  destruct (steam_installation h) as [[|c path]|] eqn:Hsteam.
  1,3: unfold main; apply Nat.ltb_ge in Hlen; rewrite Hlen, Hsteam; constructor.
  destruct (main_prefix h argv fs c path Hlen Hsteam) as (evs & _ & ->).
  set (PR := fun r => In (appid r) (tail argv) /\ appid r <> redistributables /\
                      name r = display_name (games_of h) (appid r)).
  set (s0 := mkState [] fs evs).
  enough (Hg : grows any_event PR true s0
                 (state_of ((noIcon ← process_arguments h (String c path) (tail argv);
                             report noIcon;; emit EvLogout) s0)))
    by exact (grows_appended _ _ _ _ _ Hg).
  rewrite state_of_bind.
  assert (Hpa : grows any_event PR true s0
                  (state_of (process_arguments h (String c path) (tail argv) s0))).
  { unfold process_arguments.
    destruct (existsb (String.eqb "list") (tail argv) && _) eqn:Hlist.
    { assert (Ho : only any_event PR true
                (all_games ← get_steam_games h (String c path) true;
                 print (String "010" "Total number of games installed: "
                          +:+ pretty (length all_games));; mret true));
        [|exact (Ho s0)].
      apply only_bind; [|intros; footprint].
      eapply only_weaken; [| | |apply get_steam_games_only]; [easy|intros ? []|easy]. }
    destruct (existsb (String.eqb "all") (tail argv) && _) eqn:Hall.
    { now apply mode_is_token in Hall. }
    rewrite state_of_bind.
    destruct (get_steam_games_returns h (String c path) false s0)
      as (gev & _ & _ & ->).
    cbv iota.
    eapply (grows_trans _ _ _ _
              (mkState (failed_icons s0) (files s0) (trace s0 ++ gev))).
    { exists gev, []. cbn [failed_icons files trace]. rewrite app_nil_r.
      split; [reflexivity|]. split; [reflexivity|].
      split; [apply Forall_forall; intros; exact I|].
      split; [constructor|discriminate]. }
    match goal with |- grows _ _ _ ?s1 (state_of (?m ?s1)) =>
      assert (Ho : only any_event PR true m); [|exact (Ho s1)] end.
    apply only_bind; [|intros; footprint].
    apply only_for_each. intros i app_id Hin.
    eapply only_weaken; [| | |apply process_app_id_records]; [easy| |easy].
    intros r (Hr & Hne & Hn). subst app_id. repeat split; assumption. }
  destruct (process_arguments h (String c path) (tail argv) s0)
    as [noIcon s1|e s1|c1 s1]; cbn [state_of] in Hpa |- *; try exact Hpa.
  eapply grows_trans; [exact Hpa|].
  match goal with |- grows _ _ _ ?s1 (state_of (?m ?s1)) =>
    assert (Ho : only any_event PR true m); [|exact (Ho s1)] end.
  apply only_bind; [|intros; footprint].
  eapply only_weaken; [| | |apply report_only]; [easy|intros ? []|easy].
Qed.

(** X9. Asked for [all], [main] records failures only for installed
    titles, each with that title's own identifier and name. *)
Theorem all_mode_records_installed_titles h prog fs :
  Forall (fun r =>
            exists game, In game (games_of h) /\
              appid r = game_appid game /\ name r = game_name game)
    (failed_icons (state_of (main h [prog; "all"] (initial fs)))).
Proof.
  destruct (steam_installation h) as [[|c path]|] eqn:Hsteam.
  1,3: unfold main; cbn [length Nat.ltb Nat.leb]; rewrite Hsteam; constructor.
  destruct (main_prefix h [prog; "all"] fs c path (le_n 2) Hsteam) as (evs & _ & ->).
  set (PR := fun r => exists game, In game (games_of h) /\
                        appid r = game_appid game /\ name r = game_name game).
  set (s0 := mkState [] fs evs).
  enough (Hg : grows any_event PR true s0
                 (state_of ((noIcon ← process_arguments h (String c path)
                                         (tail [prog; "all"]);
                             report noIcon;; emit EvLogout) s0)))
    by exact (grows_appended _ _ _ _ _ Hg).
  rewrite state_of_bind.
  assert (Hpa : grows any_event PR true s0
                  (state_of (process_arguments h (String c path) ["all"] s0))).
  { unfold process_arguments. cbn [existsb length Nat.eqb].
    change (String.eqb "list" "all") with false.
    change (String.eqb "all" "all") with true. cbn [orb andb].
    rewrite state_of_bind.
    destruct (get_steam_games_returns h (String c path) true s0)
      as (gev & _ & _ & ->).
    cbv iota.
    eapply (grows_trans _ _ _ _
              (mkState (failed_icons s0) (files s0) (trace s0 ++ gev))).
    { exists gev, []. cbn [failed_icons files trace]. rewrite app_nil_r.
      split; [reflexivity|]. split; [reflexivity|].
      split; [apply Forall_forall; intros; exact I|].
      split; [constructor|discriminate]. }
    match goal with |- grows _ _ _ ?s1 (state_of (?m ?s1)) =>
      assert (Ho : only any_event PR true m); [|exact (Ho s1)] end.
    apply only_bind; [footprint|intros _].
    apply only_bind; [|intros; footprint].
    apply only_for_each. intros i game Hin.
    eapply only_weaken; [| | |apply fetch_icon_by_app_id_only]; [easy| |easy].
    intros r [Hr Hn]. exists game. auto. }
  cbn [tail].
  destruct (process_arguments h (String c path) ["all"] s0)
    as [noIcon s1|e s1|c1 s1]; cbn [state_of] in Hpa |- *; try exact Hpa.
  eapply grows_trans; [exact Hpa|].
  match goal with |- grows _ _ _ ?s1 (state_of (?m ?s1)) =>
    assert (Ho : only any_event PR true m); [|exact (Ho s1)] end.
  apply only_bind; [|intros; footprint].
  eapply only_weaken; [| | |apply report_only]; [easy|intros ? []|easy].
Qed.

(** X10. [main] never ends the process because icons could not be found
    or downloaded: when it exits, the status is 1 and, while some item
    was processed, the session was not connected, [steamcmd.exe] was
    absent from the Steam directory, and SteamCMD could not be obtained
    (the directory could not be written, or the shell call of the update
    raised). *)
Theorem main_exits_only_for_steamcmd h argv s c s' :
  main h argv s = Exit c s' ->
  c = 1 /\
  exists i dir,
    steam_installation h = Some dir /\
    connected (during h i) = false /\
    os_path_exists (during h i) (os_path_join dir ["steamcmd.exe"]) = false /\
    steamcmd_unobtainable (during h i) dir.
Proof.
  unfold main. destruct (length argv <? 2)%nat; [discriminate|].
  destruct (steam_installation h) as [[|c0 path]|]; try discriminate.
  set (dir := String c0 path).
  assert (Hfetch : forall i app nm s0,
            fetch_icon_by_app_id (during h i) dir app nm s0 = Exit c s' ->
            c = 1 /\ exists i dir0, Some dir = Some dir0 /\
              connected (during h i) = false /\
              os_path_exists (during h i) (os_path_join dir0 ["steamcmd.exe"]) = false /\
              steamcmd_unobtainable (during h i) dir0).
  { intros i app nm s0 Hex.
    destruct (fetch_exit_cause _ _ _ _ _ _ _ Hex) as (Hc & Hx & Hu).
    split; [symmetry; exact (fetch_exit_status _ _ _ _ _ _ _ Hex)|].
    exists i, dir. auto. }
  intros Hex.
  apply bind_Exit_inv in Hex as [Hex|(? & ? & _ & Hex)]; [discriminate|].
  apply bind_Exit_inv in Hex as [Hex|(? & ? & _ & Hex)]; [discriminate|].
  apply bind_Exit_inv in Hex as [Hex|(? & ? & _ & Hex)].
  { destruct (anonymous_login_ok h); discriminate. }
  apply bind_Exit_inv in Hex as [Hex|(? & ? & _ & Hex)]; [discriminate|].
  apply bind_Exit_inv in Hex as [Hex|(noIcon & s1 & _ & Hex)].
  2:{ exfalso. revert Hex.
      apply (exits_bind (fun _ => False)); [apply report_exits|intros; exits]. }
  unfold process_arguments in Hex.
  destruct (existsb (String.eqb "list") (tail argv) && _).
  { exfalso. revert Hex.
    apply (exits_bind (fun _ => False)); [apply get_steam_games_exits|intros; exits]. }
  destruct (existsb (String.eqb "all") (tail argv) && _).
  - apply bind_Exit_inv in Hex as [Hex|(games & s2 & _ & Hex)].
    { now apply get_steam_games_exits with (P := fun _ => False) in Hex. }
    apply bind_Exit_inv in Hex as [Hex|(? & ? & _ & Hex)]; [discriminate|].
    apply bind_Exit_inv in Hex as [Hex|(? & ? & _ & Hex)]; [|discriminate].
    apply for_each_Exit_inv in Hex as (j & game & s0 & _ & Hex). eauto.
  - apply bind_Exit_inv in Hex as [Hex|(games & s2 & _ & Hex)].
    { now apply get_steam_games_exits with (P := fun _ => False) in Hex. }
    apply bind_Exit_inv in Hex as [Hex|(? & ? & _ & Hex)]; [|discriminate].
    apply for_each_Exit_inv in Hex as (j & app_id & s0 & _ & Hex).
    unfold process_app_id in Hex.
    destruct (String.eqb app_id redistributables); [discriminate|].
    destruct (find _ games) as [game|]; [eauto|].
    apply bind_Exit_inv in Hex as [Hex|(? & ? & _ & Hex)]; [discriminate|]. eauto.
Qed.

End Runs.

Lemma main_exits_only_for_steamcmd_witness :
  let h := Sample.host [] (fun _ => MoreSamples.read_only) in
  exists s',
    main (H:=Sample.ntpath) h [Sample.script; "10"; "20"] (initial ∅) = Exit 1 s' /\
    exists i,
      connected (during h i) = false /\
      steamcmd_unobtainable (H:=Sample.ntpath) (during h i) Sample.steam_dir.
Proof.
  intros h.
  assert (Hrun : main (H:=Sample.ntpath) h [Sample.script; "10"; "20"] (initial ∅)
                 = Exit 1 (state_of (main (H:=Sample.ntpath) h
                                       [Sample.script; "10"; "20"] (initial ∅))))
    by (vm_compute; reflexivity).
  destruct (main_exits_only_for_steamcmd (H:=Sample.ntpath) _ _ _ _ _ Hrun)
    as (_ & i & dir & Hdir & Hc & _ & Hu).
  injection Hdir as <-.
  eexists. split; [exact Hrun|]. exists i. split; assumption.
Defined.


Lemma records_come_from_the_arguments_witness :
  let games := [mkGame "CS" "730"] in
  let h := Sample.host games (fun _ => Sample.offline 0 [] (Sample.cdn 200 [])) in
  Forall (fun r =>
            In (appid r) ["228980"; "730"; "10"] /\ appid r <> "228980" /\
            name r = display_name games (appid r))
    (failed_icons (state_of (main (H:=Sample.ntpath) h
                               [Sample.script; "228980"; "730"; "10"] (initial ∅)))).
Proof.
  intros games h.
  apply (records_come_from_the_arguments (H:=Sample.ntpath) h
           [Sample.script; "228980"; "730"; "10"] ∅).
  discriminate.
Defined.


(* ===================================================================== *)
(** ** Reading the library folders *)
(* ===================================================================== *)

(** X11. Replacing two backslashes by one undoes the doubling of
    backslashes with which a VDF file writes a path. *)
Theorem replace_undoes_doubling s :
  PyStr.replace two_backslashes one_backslash (double_backslashes s) = s.
Proof.
  unfold PyStr.replace. induction s as [|c r IH]; [reflexivity|].
  cbn [double_backslashes]. destruct (Ascii.eqb_spec c backslash) as [->|Hne].
  - cbn [PyStr.replace_from PyStr.startswith two_backslashes]. rewrite Ascii.eqb_refl.
    cbn [andb]. change (String.length two_backslashes - 1)%nat with 1%nat.
    cbv iota. rewrite IH. reflexivity.
  - cbn [PyStr.replace_from PyStr.startswith two_backslashes].
    apply Ascii.eqb_neq in Hne. rewrite Ascii.eqb_sym, Hne. cbn [andb].
    now rewrite IH.
Qed.

(** A string without two backslashes in a row is left as it is. *)
Lemma replace_without_occurrence old new s :
  PyStr.contains old s = false -> PyStr.replace old new s = s.
Proof.
  unfold PyStr.replace. induction s as [|c r IH]; [reflexivity|].
  cbn [PyStr.contains PyStr.replace_from]. intros [Hs Hr]%orb_false_elim.
  rewrite Hs. now rewrite IH.
Qed.

Section LibraryFolderFacts.
Context `{Python}.

Lemma library_folder_lines_spec lines values acc s :
  Forall2 vdf_line lines values ->
  library_folder_lines lines acc s =
  Ret (acc ++ map (fun value =>
                     os_path_join (PyStr.replace two_backslashes one_backslash value)
                       ["steamapps"])
         (omap id values)) s.
Proof.
  intros Hl. revert acc. induction Hl as [|line value lines values Hline _ IH];
    intros acc; cbn [library_folder_lines].
  - cbn [omap map]. now rewrite app_nil_r.
  - destruct Hline as [line Hno|pre key mid value post Hpre Hkey Hmid Hval Hyes].
    + rewrite Hno. rewrite IH. reflexivity.
    + rewrite Hyes.
      pose proof (quoted_value_index pre key mid value post Hpre Hkey Hmid Hval)
        as Hparts.
      unfold mbind, M_bind, bind, index. rewrite Hparts. cbn beta iota.
      unfold ret at 1. rewrite IH. cbn [omap map id option_bind].
      now rewrite <- app_assoc.
Qed.

(** X12. [get_steam_library_folders] on a VDF file whose lines either
    lack the word [path] or start with two quoted tokens: the folders
    are, in the order of the file, the second token of each line that
    holds the word, with doubled backslashes undone and [steamapps]
    joined to it.  Nothing but the file is read. *)
Theorem library_folders_of_vdf w steamPath lines values s :
  os_path_exists w (steamPath +:+ "\steamapps\libraryfolders.vdf") = true ->
  readlines w (steamPath +:+ "\steamapps\libraryfolders.vdf") = Returns lines ->
  Forall2 vdf_line lines values ->
  get_steam_library_folders w steamPath s =
  Ret (map (fun value =>
              os_path_join (PyStr.replace two_backslashes one_backslash value)
                ["steamapps"])
         (omap id values))
    (mkState (failed_icons s) (files s)
       (trace s ++ [EvReadLines (steamPath +:+ "\steamapps\libraryfolders.vdf")])).
Proof.
  intros Hex Hread Hl. unfold get_steam_library_folders. rewrite Hex.
  unfold mbind, M_bind, bind. rewrite emit_eq, Hread. cbn [call]. unfold ret at 1.
  now rewrite (library_folder_lines_spec lines values []).
Qed.



End LibraryFolderFacts.

Lemma library_folders_of_vdf_witness :
  let lines := [PyStr.quoted "libraryfolders" +:+ String "010" EmptyString;
                "{" +:+ String "010" EmptyString;
                Sample.key_value_line "path" (double_backslashes "D:\SteamLibrary");
                Sample.key_value_line "label" EmptyString;
                "}" +:+ String "010" EmptyString] in
  let w := Sample.offline 0 lines (Sample.cdn 200 []) in
  exists s',
    get_steam_library_folders (H:=Sample.ntpath) w Sample.steam_dir (initial ∅)
      = Ret ["D:\SteamLibrary\steamapps"] s'.
Proof.
  intros lines w. eexists.
  rewrite (library_folders_of_vdf (H:=Sample.ntpath) w Sample.steam_dir lines
             [None; None; Some (double_backslashes "D:\SteamLibrary"); None; None]
             (initial ∅) eq_refl eq_refl).
  - reflexivity.
  - constructor; [apply vdf_other; reflexivity|].
    constructor; [apply vdf_other; reflexivity|].
    constructor.
    { apply (vdf_path (String "009" (String "009" EmptyString)) "path"
               (String "009" (String "009" EmptyString))
               (double_backslashes "D:\SteamLibrary")
               (String "010" EmptyString)); reflexivity. }
    constructor; [apply vdf_other; reflexivity|].
    constructor; [apply vdf_other; reflexivity|]. constructor.
Defined.


(* ===================================================================== *)
(** ** What [download_and_extract] unpacks *)
(* ===================================================================== *)

Section Unpack.
Context `{Python}.

(** X14. [download_and_extract] starts unpacking into [path] exactly
    when [path] is a writeable directory, the download answers 200, the
    body opens as a zip archive and [testzip] finds no bad member; in
    every other case nothing is unpacked. *)
Theorem archive_is_unpacked_iff w url path s :
  In (EvExtract path) (emitted s (state_of (download_and_extract w url path s))) <->
  os_path_isdir w path = true /\ os_access_W_OK w path = true /\
  exists resp zip,
    requests_get w url = Returns resp /\ status_code resp = 200 /\
    zipfile_ZipFile w (content resp) = Returns zip /\
    testzip zip = Returns None.
Proof.
  unfold download_and_extract.
  destruct (os_path_isdir w path); cbn [negb orb].
  2:{ unfold raise, emitted. cbn [state_of]. rewrite drop_all.
      split; [intros []|intros [? _]; discriminate]. }
  destruct (os_access_W_OK w path); cbn [negb orb].
  2:{ unfold raise, emitted. cbn [state_of]. rewrite drop_all.
      split; [intros []|intros (_ & ? & _); discriminate]. }
  unfold or_except, except_class. run_step.
  destruct (requests_get w url) as [e|resp] eqn:Hget; simpl.
  { split; [|intros (_ & _ & r & z & Hr & _); congruence].
    destruct (exn_class e); simpl; unfold emitted; simpl;
      rewrite <- ?app_assoc, drop_app_length; simpl; intuition discriminate. }
  destruct (status_code resp =? 200) eqn:Hst; simpl.
  2:{ unfold emitted. simpl. rewrite <- ?app_assoc, drop_app_length. simpl.
      split; [intuition discriminate|].
      intros (_ & _ & r & z & Hr & Hs & _). apply Z.eqb_neq in Hst. congruence. }
  apply Z.eqb_eq in Hst.
  destruct (zipfile_ZipFile w (content resp)) as [e|zip] eqn:Hzip; simpl.
  { split; [|intros (_ & _ & r & z & Hr & _ & Hz & _); congruence].
    destruct (exn_class e); simpl; unfold emitted; simpl;
      rewrite <- ?app_assoc, drop_app_length; simpl; intuition discriminate. }
  destruct (testzip zip) as [e|[bad|]] eqn:Htest; simpl.
  - split; [|intros (_ & _ & r & z & Hr & _ & Hz & Ht); congruence].
    destruct (exn_class e); simpl; unfold emitted; simpl;
      rewrite <- ?app_assoc, drop_app_length; simpl; intuition discriminate.
  - split; [|intros (_ & _ & r & z & Hr & _ & Hz & Ht); congruence].
    unfold emitted; simpl; rewrite <- ?app_assoc, drop_app_length; simpl;
      intuition discriminate.
  - split; [intros _; do 2 (split; [reflexivity|]); exists resp, zip; auto|intros _].
    destruct (extractall zip path) as [e|[]]; simpl.
    + destruct (exn_class e); simpl; unfold emitted; simpl;
        rewrite <- ?app_assoc, drop_app_length; simpl; auto.
    + unfold emitted; simpl; rewrite <- ?app_assoc, drop_app_length; simpl; auto.
Qed.

End Unpack.

(* ===================================================================== *)
(** ** A failed download on the fast path *)
(* ===================================================================== *)

Section FastDownloadError.
Context `{Python}.

(** X15. With a connected session that names an icon, an exception of
    the icon request is caught by the fast path and only printed:
    [fetch_icon_by_app_id] returns normally, nothing is written, and no
    failure record is appended, so the identifier is absent from the
    report and from the retry command at the end of the run. *)
Theorem fast_download_error_leaves_no_record w dir app nm s stem e :
  connected w = true ->
  client_icon_of w app = Some stem ->
  requests_get w (icon_url app stem) = Raises e ->
  exists n,
    int app = Returns n /\
    fetch_icon_by_app_id w dir app nm s =
    Ret tt
      (mkState (failed_icons s) (files s)
         (trace s ++
            [EvQuery n;
             EvPrint ("[FAST] Client Icon URL for " +:+ nm +:+ " - " +:+ app
                        +:+ ": " +:+ icon_url app stem);
             EvHttpGet (icon_url app stem);
             EvPrint ("[FAST] An error occurred: " +:+ exn_str e)])).
Proof.
  unfold fetch_icon_by_app_id, fast_path, client_icon_of. intros -> Hicon Hget.
  destruct (int app) as [e0|n]; [discriminate|]. exists n. split; [reflexivity|].
  destruct (get_product_info w n) as [e0|[d|]] eqn:Hinfo; try discriminate.
  run_step. rewrite Hinfo. simpl.
  destruct (decide (d = ∅)) as [->|_].
  { rewrite lookup_empty in Hicon. discriminate. }
  destruct (d !! "apps") as [apps|]; [|discriminate]. simpl in *.
  destruct (apps !! n) as [entry|]; [|discriminate]. simpl in *.
  destruct (entry !! "common") as [common|]; [|discriminate]. simpl in *.
  rewrite Hicon. unfold download_icon. run_step. rewrite Hget. simpl.
  now rewrite <- !app_assoc.
Qed.

End FastDownloadError.

Lemma fast_download_error_leaves_no_record_witness :
  let w := Sample.online (Returns (Sample.product 730 {[ "clienticon" := "abc123" ]}))
             (fun _ => Raises Sample.refused) in
  exists s',
    fetch_icon_by_app_id (H:=Sample.ntpath) w Sample.steam_dir "730" "CS" (initial ∅)
      = Ret tt s' /\
    failed_icons s' = [] /\ files s' = ∅.
Proof.
  intros w.
  destruct (fast_download_error_leaves_no_record (H:=Sample.ntpath) w Sample.steam_dir
              "730" "CS" (initial ∅) "abc123" Sample.refused
              eq_refl eq_refl eq_refl) as (n & _ & Hrun).
  eexists. split; [exact Hrun|]. split; reflexivity.
Defined.
